(** * pie_noon: the menu navigation core (src/gui_menu.cpp)

    A shallow embedding of [fpl::pie_noon::GuiMenu]: the widget and image
    collections, the current focus and the queue of pending selections,
    with the member functions [Setup], [AdvanceFrame], [FindButtonById],
    [ClearRecentSelections], [GetRecentSelection], [HandleControllerInput],
    [UpdateFocus], [GetFocus] and [SetFocus].

    Of the headers the file includes (gui_menu.h, config_generated.h,
    touchscreen_button.h, controller.h, utilities.h) only the uses are
    known.  The enumerators, constants and opaque collaborator types
    they declare are the fields of the class [Platform]; a widget's own
    per-frame update and trigger query are the class [Widget]. *)

From stdpp Require Import base numbers strings list.

(** ** Scalar types *)

(** [ButtonId] is an enumeration whose values also travel as [uint16_t]
    in the navigation lists; it is kept as its unsigned number. *)
Definition ButtonId := N.

(** [ControllerId] is a signed integer. *)
Definition ControllerId := Z.

(** ** Constants and opaque types of the missing headers *)

Class Platform := {
  (* enum ButtonId *)
  ButtonId_Undefined : ButtonId;
  ButtonId_InvalidInput : ButtonId;
  ButtonId_Cancel : ButtonId;
  (* controller identities *)
  kTouchController : ControllerId;
  kUndefinedController : ControllerId;
  (* enum LogicalInputs, one mask per signal *)
  LogicalInputs_Up : Z;
  LogicalInputs_Down : Z;
  LogicalInputs_Left : Z;
  LogicalInputs_Right : Z;
  LogicalInputs_Select : Z;
  LogicalInputs_Cancel : Z;
  (* bool TouchScreenDevice() *)
  TouchScreenDevice : bool;
  (* handles returned by the material manager *)
  Material : Type;
  Shader : Type;
  (* arguments of the per-frame update *)
  WorldTime : Type;
  InputSystem : Type;
  vec2 : Type;
  (* a widget's private press and animation state, and its initial value *)
  TouchState : Type;
  TouchState_init : TouchState;
}.

(** ** The menu definition (flatbuffers tables)

    A field the code dereferences without a null test is a plain value;
    a field it tests against [nullptr] (directly or through
    [ArrayLength]) is an [option]. *)

Module ButtonTexture.
Record t := mk {
  standard : string;
  touch_screen : option string;
}.
End ButtonTexture.

Module ButtonDef.
Record t := mk {
  ID : ButtonId;
  starts_active : Z;
  nav_up : option (list N);
  nav_down : option (list N);
  nav_left : option (list N);
  nav_right : option (list N);
  texture_normal : option (list ButtonTexture.t);
  texture_pressed : option ButtonTexture.t;
  shader : option string;
  inactive_shader : option string;
}.
End ButtonDef.

Module StaticImageDef.
Record t := mk {
  ID : ButtonId;
  texture : list ButtonTexture.t;
  shader : option string;
  render_after_buttons : bool;
}.
End StaticImageDef.

Module UiGroup.
Record t := mk {
  cannonical_window_height : Z;
  starting_selection : ButtonId;
  default_shader : string;
  default_inactive_shader : string;
  button_list : option (list ButtonDef.t);
  static_image_list : option (list StaticImageDef.t);
}.
End UiGroup.

(** [ArrayLength]: the length of a possibly null vector. *)
Definition ArrayLength {A} (array : option (list A)) : nat :=
  match array with
  | None => 0
  | Some v => length v
  end.

(** The elements a loop bounded by [ArrayLength] visits. *)
Definition ArrayElements {A} (array : option (list A)) : list A :=
  match array with
  | None => []
  | Some v => v
  end.

(** [TextureName]: the touch variant when there is one and the device
    has a touch screen, the standard one otherwise. *)
Definition TextureName `{Platform} (button_texture : ButtonTexture.t) : string :=
  match ButtonTexture.touch_screen button_texture with
  | Some touch_name =>
      if TouchScreenDevice then touch_name
      else ButtonTexture.standard button_texture
  | None => ButtonTexture.standard button_texture
  end.

(** ** The widgets (external collaborators) *)

Module TouchscreenButton.
Section with_platform.
Context `{Platform}.

(** Modelled from the spec: touchscreen_button.h is missing.  A widget
    carries an activation flag, a visibility flag, a highlight flag, a
    reference to its static definition, its visual materials and
    shader pair, and private touch state. *)
Record t := mk {
  button_def : option ButtonDef.t;
  is_active : bool;
  is_visible : bool;
  is_highlighted : bool;
  up_materials : list (option Material);
  down_material : option Material;
  shader : option Shader;
  inactive_shader : option Shader;
  cannonical_window_height : Z;
  touch : TouchState;
}.

(** Modelled from the spec: the default constructor, a widget bound to
    no definition, active and visible, not highlighted. *)
Definition new : t :=
  {| button_def := None; is_active := true; is_visible := true;
     is_highlighted := false; up_materials := []; down_material := None;
     shader := None; inactive_shader := None;
     cannonical_window_height := 0; touch := TouchState_init |}.

(** Modelled from the spec: the identity of a widget is the identity
    its definition declares; a widget bound to no definition reports
    the undefined identity. *)
Definition GetId (b : t) : ButtonId :=
  match button_def b with
  | Some d => ButtonDef.ID d
  | None => ButtonId_Undefined
  end.

Definition set_button_def (d : ButtonDef.t) (b : t) : t :=
  {| button_def := Some d; is_active := is_active b;
     is_visible := is_visible b; is_highlighted := is_highlighted b;
     up_materials := up_materials b; down_material := down_material b;
     shader := shader b; inactive_shader := inactive_shader b;
     cannonical_window_height := cannonical_window_height b;
     touch := touch b |}.

Definition set_is_active (v : bool) (b : t) : t :=
  {| button_def := button_def b; is_active := v;
     is_visible := is_visible b; is_highlighted := is_highlighted b;
     up_materials := up_materials b; down_material := down_material b;
     shader := shader b; inactive_shader := inactive_shader b;
     cannonical_window_height := cannonical_window_height b;
     touch := touch b |}.

Definition set_is_visible (v : bool) (b : t) : t :=
  {| button_def := button_def b; is_active := is_active b;
     is_visible := v; is_highlighted := is_highlighted b;
     up_materials := up_materials b; down_material := down_material b;
     shader := shader b; inactive_shader := inactive_shader b;
     cannonical_window_height := cannonical_window_height b;
     touch := touch b |}.

Definition set_is_highlighted (v : bool) (b : t) : t :=
  {| button_def := button_def b; is_active := is_active b;
     is_visible := is_visible b; is_highlighted := v;
     up_materials := up_materials b; down_material := down_material b;
     shader := shader b; inactive_shader := inactive_shader b;
     cannonical_window_height := cannonical_window_height b;
     touch := touch b |}.

(** Modelled from the spec: slot [i] of the normal-state materials is
    written, the vector growing when it is too short. *)
Definition set_up_material (i : nat) (m : option Material) (b : t) : t :=
  let slots :=
    if decide (length (up_materials b) ≤ i)
    then resize (S i) None (up_materials b)
    else up_materials b in
  {| button_def := button_def b; is_active := is_active b;
     is_visible := is_visible b; is_highlighted := is_highlighted b;
     up_materials := <[i:=m]> slots; down_material := down_material b;
     shader := shader b; inactive_shader := inactive_shader b;
     cannonical_window_height := cannonical_window_height b;
     touch := touch b |}.

Definition set_down_material (m : option Material) (b : t) : t :=
  {| button_def := button_def b; is_active := is_active b;
     is_visible := is_visible b; is_highlighted := is_highlighted b;
     up_materials := up_materials b; down_material := m;
     shader := shader b; inactive_shader := inactive_shader b;
     cannonical_window_height := cannonical_window_height b;
     touch := touch b |}.

Definition set_shader (s : option Shader) (b : t) : t :=
  {| button_def := button_def b; is_active := is_active b;
     is_visible := is_visible b; is_highlighted := is_highlighted b;
     up_materials := up_materials b; down_material := down_material b;
     shader := s; inactive_shader := inactive_shader b;
     cannonical_window_height := cannonical_window_height b;
     touch := touch b |}.

Definition set_inactive_shader (s : option Shader) (b : t) : t :=
  {| button_def := button_def b; is_active := is_active b;
     is_visible := is_visible b; is_highlighted := is_highlighted b;
     up_materials := up_materials b; down_material := down_material b;
     shader := shader b; inactive_shader := s;
     cannonical_window_height := cannonical_window_height b;
     touch := touch b |}.

Definition SetCannonicalWindowHeight (h : Z) (b : t) : t :=
  {| button_def := button_def b; is_active := is_active b;
     is_visible := is_visible b; is_highlighted := is_highlighted b;
     up_materials := up_materials b; down_material := down_material b;
     shader := shader b; inactive_shader := inactive_shader b;
     cannonical_window_height := h; touch := touch b |}.

(** The private touch state replaced, as the widget's own update does. *)
Definition set_touch (s : TouchState) (b : t) : t :=
  {| button_def := button_def b; is_active := is_active b;
     is_visible := is_visible b; is_highlighted := is_highlighted b;
     up_materials := up_materials b; down_material := down_material b;
     shader := shader b; inactive_shader := inactive_shader b;
     cannonical_window_height := cannonical_window_height b; touch := s |}.
End with_platform.
End TouchscreenButton.

Module StaticImage.
Section with_platform.
Context `{Platform}.

(** Modelled from the spec: static_image.h is missing.  A static image
    holds its definition, its resolved materials and shader, and the
    canonical height it was initialised with. *)
Record t := mk {
  image_def : option StaticImageDef.t;
  materials : list (option Material);
  shader : option Shader;
  cannonical_window_height : Z;
}.

Definition new : t :=
  {| image_def := None; materials := []; shader := None;
     cannonical_window_height := 0 |}.

Definition Initialize (d : StaticImageDef.t) (ms : list (option Material))
    (s : option Shader) (h : Z) (_ : t) : t :=
  {| image_def := Some d; materials := ms; shader := s;
     cannonical_window_height := h |}.

Definition GetId (i : t) : ButtonId :=
  match image_def i with
  | Some d => StaticImageDef.ID d
  | None => ButtonId_Undefined
  end.
End with_platform.
End StaticImage.

(** The widget's own per-frame update, which may change any of its
    state, and its trigger query, which changes none. *)
Class Widget `{Platform} := {
  TouchscreenButton_AdvanceFrame :
    WorldTime → InputSystem → vec2 → TouchscreenButton.t → TouchscreenButton.t;
  IsTriggered : TouchscreenButton.t → bool;
}.

(** ** Selection events and the material manager *)

(** A selection: which identity was chosen and by which controller. *)
Record MenuSelection := MkMenuSelection {
  button_id : ButtonId;
  controller_id : ControllerId;
}.

(** The asset-resolution collaborator: both lookups may return null. *)
Record MaterialManager `{Platform} := MkMaterialManager {
  FindMaterial : string → option Material;
  FindShader : string → option Shader;
}.

(** What [Setup] does to the outside: calls on the material manager and
    log lines, in program order. *)
Inductive Effect :=
  | CallFindMaterial (name : string)
  | CallFindShader (name : string)
  | SDL_LogInfo (message : string)
  | SDL_LogError (format : string) (argument : string).

(** A computation together with the effects it performed. *)
Definition Traced (A : Type) : Type := A * list Effect.

#[global] Instance Traced_ret : MRet Traced := λ A x, (x, []).
#[global] Instance Traced_bind : MBind Traced :=
  λ A B f m, ((f m.1).1, m.2 ++ (f m.1).2).

Definition emit (e : Effect) : Traced unit := (tt, [e]).

Definition find_material `{Platform} (matman : MaterialManager) (name : string)
    : Traced (option Material) :=
  emit (CallFindMaterial name);; mret (FindMaterial matman name).

Definition find_shader `{Platform} (matman : MaterialManager) (name : string)
    : Traced (option Shader) :=
  emit (CallFindShader name);; mret (FindShader matman name).

(** ** The menu *)

Section GuiMenu.
Context `{Widget}.

Record GuiMenu := MkGuiMenu {
  menu_def_ : option UiGroup.t;
  button_list_ : list TouchscreenButton.t;
  image_list_ : list StaticImage.t;
  current_focus_ : ButtonId;
  unhandled_selections_ : list MenuSelection;
}.

(** [unhandled_selections_.push(e)] *)
Definition push (e : MenuSelection) (g : GuiMenu) : GuiMenu :=
  {| menu_def_ := menu_def_ g; button_list_ := button_list_ g;
     image_list_ := image_list_ g; current_focus_ := current_focus_ g;
     unhandled_selections_ := unhandled_selections_ g ++ [e] |}.

Definition ClearRecentSelections (g : GuiMenu) : GuiMenu :=
  {| menu_def_ := menu_def_ g; button_list_ := button_list_ g;
     image_list_ := image_list_ g; current_focus_ := current_focus_ g;
     unhandled_selections_ := [] |}.

Definition GetFocus (g : GuiMenu) : ButtonId := current_focus_ g.

Definition SetFocus (new_focus : ButtonId) (g : GuiMenu) : GuiMenu :=
  {| menu_def_ := menu_def_ g; button_list_ := button_list_ g;
     image_list_ := image_list_ g; current_focus_ := new_focus;
     unhandled_selections_ := unhandled_selections_ g |}.

(** The scan of [FindButtonById]: the first widget with the identity. *)
Fixpoint find_button (buttons : list TouchscreenButton.t) (id : ButtonId)
    : option TouchscreenButton.t :=
  match buttons with
  | [] => None
  | b :: rest =>
      if bool_decide (TouchscreenButton.GetId b = id) then Some b
      else find_button rest id
  end.

Definition FindButtonById (g : GuiMenu) (id : ButtonId)
    : option TouchscreenButton.t :=
  find_button (button_list_ g) id.

Fixpoint find_image (images : list StaticImage.t) (id : ButtonId)
    : option StaticImage.t :=
  match images with
  | [] => None
  | i :: rest =>
      if bool_decide (StaticImage.GetId i = id) then Some i
      else find_image rest id
  end.

Definition FindImageById (g : GuiMenu) (id : ButtonId) : option StaticImage.t :=
  find_image (image_list_ g) id.

(** *** Setup *)

(** The loop over [texture_normal], from index [j] on. *)
Fixpoint Setup_texture_normal (matman : MaterialManager) (j : nat)
    (textures : list ButtonTexture.t) (b : TouchscreenButton.t)
    : Traced TouchscreenButton.t :=
  match textures with
  | [] => mret b
  | texture :: rest =>
      let texture_name := TextureName texture in
      m ← find_material matman texture_name;
      Setup_texture_normal matman (S j) rest
        (TouchscreenButton.set_up_material j m b)
  end.

(** The body of the loop over the declared buttons: the widget stored
    at [button_list_[i]]. *)
Definition Setup_button (matman : MaterialManager) (menu_def : UiGroup.t)
    (button : ButtonDef.t) : Traced TouchscreenButton.t :=
  let b := TouchscreenButton.new in
  b ← Setup_texture_normal matman 0
         (ArrayElements (ButtonDef.texture_normal button)) b;
  b ← match ButtonDef.texture_pressed button with
      | Some texture =>
          m ← find_material matman (TextureName texture);
          mret (TouchscreenButton.set_down_material m b)
      | None => mret b
      end;
  let shader_name :=
    match ButtonDef.shader button with
    | None => UiGroup.default_shader menu_def
    | Some name => name
    end in
  shader ← find_shader matman shader_name;
  let inactive_shader_name :=
    match ButtonDef.inactive_shader button with
    | None => UiGroup.default_inactive_shader menu_def
    | Some name => name
    end in
  inactive_shader ← find_shader matman inactive_shader_name;
  match shader with
  | None => emit (SDL_LogInfo "Buttons used in menus must specify a shader!")
  | Some _ => mret tt
  end;;
  let b := TouchscreenButton.set_shader shader b in
  let b := TouchscreenButton.set_inactive_shader inactive_shader b in
  let b := TouchscreenButton.set_button_def button b in
  let b := TouchscreenButton.set_is_active
             (negb (ButtonDef.starts_active button =? 0)%Z) b in
  let b := TouchscreenButton.set_is_highlighted true b in
  mret (TouchscreenButton.SetCannonicalWindowHeight
          (UiGroup.cannonical_window_height menu_def) b).

(** The loop over the declared buttons, from index [i] on. *)
Fixpoint Setup_buttons (matman : MaterialManager) (menu_def : UiGroup.t)
    (i : nat) (buttons : list ButtonDef.t)
    (button_list : list TouchscreenButton.t)
    : Traced (list TouchscreenButton.t) :=
  match buttons with
  | [] => mret button_list
  | button :: rest =>
      b ← Setup_button matman menu_def button;
      Setup_buttons matman menu_def (S i) rest (<[i:=b]> button_list)
  end.

(** The loop filling [materials] of one static image, from index [j] on. *)
Fixpoint Setup_image_materials (matman : MaterialManager) (j : nat)
    (textures : list ButtonTexture.t) (materials : list (option Material))
    : Traced (list (option Material)) :=
  match textures with
  | [] => mret materials
  | texture :: rest =>
      let material_name := TextureName texture in
      m ← find_material matman material_name;
      match m with
      | None => emit (SDL_LogError "Static image '%s' not found" material_name)
      | Some _ => mret tt
      end;;
      Setup_image_materials matman (S j) rest (<[j:=m]> materials)
  end.

(** The loop over the declared static images, from index [i] on. *)
Fixpoint Setup_images (matman : MaterialManager) (menu_def : UiGroup.t)
    (i : nat) (images : list StaticImageDef.t)
    (image_list : list StaticImage.t) : Traced (list StaticImage.t) :=
  match images with
  | [] => mret image_list
  | image_def :: rest =>
      let num_textures := length (StaticImageDef.texture image_def) in
      materials ← Setup_image_materials matman 0
                    (StaticImageDef.texture image_def)
                    (replicate num_textures None);
      let shader_name :=
        match StaticImageDef.shader image_def with
        | None => UiGroup.default_shader menu_def
        | Some name => name
        end in
      shader ← find_shader matman shader_name;
      match shader with
      | None => emit (SDL_LogError "Static image missing shader '%s'" shader_name)
      | Some _ => mret tt
      end;;
      Setup_images matman menu_def (S i) rest
        (alter (StaticImage.Initialize image_def materials shader
                  (UiGroup.cannonical_window_height menu_def)) i image_list)
  end.

(** [Setup].  [None] is the failure of the assertion on the canonical
    window height; otherwise the new menu and the effects performed. *)
Definition Setup (menu_def : option UiGroup.t) (matman : MaterialManager)
    (g : GuiMenu) : option (Traced GuiMenu) :=
  let g := ClearRecentSelections g in
  match menu_def with
  | None =>
      Some (mret
        {| menu_def_ := menu_def_ g;
           button_list_ := resize 0 TouchscreenButton.new (button_list_ g);
           image_list_ := resize 0 StaticImage.new (image_list_ g);
           current_focus_ := ButtonId_Undefined;
           unhandled_selections_ := unhandled_selections_ g |})
  | Some def =>
      if decide (0 < UiGroup.cannonical_window_height def)%Z then
        let length_button_list := ArrayLength (UiGroup.button_list def) in
        let length_image_list := ArrayLength (UiGroup.static_image_list def) in
        Some (
          buttons ← Setup_buttons matman def 0
                      (ArrayElements (UiGroup.button_list def))
                      (resize length_button_list TouchscreenButton.new
                         (button_list_ g));
          images ← Setup_images matman def 0
                     (ArrayElements (UiGroup.static_image_list def))
                     (resize length_image_list StaticImage.new
                        (image_list_ g));
          mret
            {| menu_def_ := Some def;
               button_list_ := buttons;
               image_list_ := images;
               current_focus_ := UiGroup.starting_selection def;
               unhandled_selections_ := unhandled_selections_ g |})
      else None
  end.

(** *** Per-frame advance *)

(** The event a triggered widget leaves in the queue. *)
Definition touch_selection (b : TouchscreenButton.t) : MenuSelection :=
  MkMenuSelection
    (if TouchscreenButton.is_active b then TouchscreenButton.GetId b
     else ButtonId_InvalidInput)
    kTouchController.

(** The loop of [AdvanceFrame] over the widgets still to visit: each is
    advanced and re-highlighted in place, and pushes when triggered. *)
Fixpoint AdvanceFrame_buttons (delta_time : WorldTime) (input : InputSystem)
    (window_size : vec2) (focus : ButtonId)
    (buttons : list TouchscreenButton.t) (queue : list MenuSelection)
    : list TouchscreenButton.t * list MenuSelection :=
  match buttons with
  | [] => ([], queue)
  | current_button :: rest =>
      let current_button :=
        TouchscreenButton_AdvanceFrame delta_time input window_size
          current_button in
      let current_button :=
        TouchscreenButton.set_is_highlighted
          (bool_decide (focus = TouchscreenButton.GetId current_button))
          current_button in
      let queue :=
        if IsTriggered current_button
        then queue ++ [touch_selection current_button]
        else queue in
      let '(rest, queue) :=
        AdvanceFrame_buttons delta_time input window_size focus rest queue in
      (current_button :: rest, queue)
  end.

Definition AdvanceFrame (delta_time : WorldTime) (input : InputSystem)
    (window_size : vec2) (g : GuiMenu) : GuiMenu :=
  let g := ClearRecentSelections g in
  let '(buttons, queue) :=
    AdvanceFrame_buttons delta_time input window_size (current_focus_ g)
      (button_list_ g) (unhandled_selections_ g) in
  {| menu_def_ := menu_def_ g; button_list_ := buttons;
     image_list_ := image_list_ g; current_focus_ := current_focus_ g;
     unhandled_selections_ := queue |}.

(** *** The queue *)

Definition GetRecentSelection (g : GuiMenu) : MenuSelection * GuiMenu :=
  match unhandled_selections_ g with
  | [] => (MkMenuSelection ButtonId_Undefined kUndefinedController, g)
  | return_value :: rest =>
      (return_value,
       {| menu_def_ := menu_def_ g; button_list_ := button_list_ g;
          image_list_ := image_list_ g; current_focus_ := current_focus_ g;
          unhandled_selections_ := rest |})
  end.

(** *** Navigation *)

(** The loop of [UpdateFocus]: the first destination that names a
    widget which is visible. *)
Fixpoint UpdateFocus_scan (g : GuiMenu) (destination_list : list N)
    : option ButtonId :=
  match destination_list with
  | [] => None
  | destination_id :: rest =>
      match FindButtonById g destination_id with
      | Some destination =>
          if TouchscreenButton.is_visible destination then Some destination_id
          else UpdateFocus_scan g rest
      | None => UpdateFocus_scan g rest
      end
  end.

Definition UpdateFocus (destination_list : option (list N)) (g : GuiMenu)
    : GuiMenu :=
  match destination_list ≫= UpdateFocus_scan g with
  | Some destination_id => SetFocus destination_id g
  | None => push (MkMenuSelection ButtonId_InvalidInput kTouchController) g
  end.

(** [logical_input & mask], read as a condition.  [logical_input] is a
    [uint32_t]; on its range the conjunction with a mask converted to
    [uint32_t] has the bits of the conjunction with the mask itself. *)
Definition asserted (logical_input mask : Z) : bool :=
  negb (Z.land logical_input mask =? 0)%Z.

(** [HandleControllerInput].  [None] is a null [button_def()] of the
    focused widget being dereferenced for a direction. *)
Definition HandleControllerInput (logical_input : Z)
    (controller_id : ControllerId) (g : GuiMenu) : option GuiMenu :=
  match FindButtonById g (current_focus_ g) with
  | None => Some g
  | Some current_focus_button_ =>
      let current_def := TouchscreenButton.button_def current_focus_button_ in
      g ← (if asserted logical_input LogicalInputs_Up
           then d ← current_def; Some (UpdateFocus (ButtonDef.nav_up d) g)
           else Some g);
      g ← (if asserted logical_input LogicalInputs_Down
           then d ← current_def; Some (UpdateFocus (ButtonDef.nav_down d) g)
           else Some g);
      g ← (if asserted logical_input LogicalInputs_Left
           then d ← current_def; Some (UpdateFocus (ButtonDef.nav_left d) g)
           else Some g);
      g ← (if asserted logical_input LogicalInputs_Right
           then d ← current_def; Some (UpdateFocus (ButtonDef.nav_right d) g)
           else Some g);
      let g :=
        if asserted logical_input LogicalInputs_Select
        then push (MkMenuSelection
                     (if TouchscreenButton.is_active current_focus_button_
                      then current_focus_ g
                      else ButtonId_InvalidInput)
                     controller_id) g
        else g in
      let g :=
        if asserted logical_input LogicalInputs_Cancel
        then push (MkMenuSelection ButtonId_Cancel controller_id) g
        else g in
      Some g
  end.

(** Draining: [n] successive calls of [GetRecentSelection]. *)
Fixpoint drain (n : nat) (g : GuiMenu) : list MenuSelection * GuiMenu :=
  match n with
  | 0 => ([], g)
  | S n =>
      let '(e, g) := GetRecentSelection g in
      let '(es, g) := drain n g in
      (e :: es, g)
  end.

(** *** Notions used in the statements *)

Implicit Types (g : GuiMenu) (b : TouchscreenButton.t) (id : ButtonId).

(** The answer of an empty queue. *)
Definition no_selection : MenuSelection :=
  MkMenuSelection ButtonId_Undefined kUndefinedController.

(** A destination resolves to a visible widget: the lookup finds a
    widget and that widget is visible. *)
Definition visible_destination g id : bool :=
  match FindButtonById g id with
  | Some destination => TouchscreenButton.is_visible destination
  | None => false
  end.

(** No destination of a list resolves to a visible widget. *)
Definition no_visible_destination g (destinations : list N) : bool :=
  forallb (λ id, negb (visible_destination g id)) destinations.

(** The events one widget contributes to the queue in a frame. *)
Definition trigger_events b : list MenuSelection :=
  if IsTriggered b
  then [MkMenuSelection
          (if TouchscreenButton.is_active b then TouchscreenButton.GetId b
           else ButtonId_InvalidInput)
          kTouchController]
  else [].

(** One widget after its turn in the loop of [AdvanceFrame]. *)
Definition advanced_button (delta_time : WorldTime) (input : InputSystem)
    (window_size : vec2) (focus : ButtonId) b : TouchscreenButton.t :=
  let b' := TouchscreenButton_AdvanceFrame delta_time input window_size b in
  TouchscreenButton.set_is_highlighted
    (bool_decide (focus = TouchscreenButton.GetId b')) b'.

(** Every widget's highlight flag tells whether the widget holds the
    focus. *)
Definition highlight_tracks_focus g : Prop :=
  Forall
    (λ b, TouchscreenButton.is_highlighted b = true
          ↔ TouchscreenButton.GetId b = current_focus_ g)
    (button_list_ g).

(** No widget of the collection carries the identity in focus. *)
Definition focus_missing g : Prop :=
  Forall (λ b, TouchscreenButton.GetId b ≠ current_focus_ g) (button_list_ g).

(** The host changing a widget's visibility through the pointer that
    [FindButtonById] returns: the first widget with the identity. *)
Fixpoint set_visible_in (buttons : list TouchscreenButton.t) (id : ButtonId)
    (v : bool) : list TouchscreenButton.t :=
  match buttons with
  | [] => []
  | b :: rest =>
      if bool_decide (TouchscreenButton.GetId b = id)
      then TouchscreenButton.set_is_visible v b :: rest
      else b :: set_visible_in rest id v
  end.

Definition set_button_visible (id : ButtonId) (v : bool) (g : GuiMenu)
    : GuiMenu :=
  {| menu_def_ := menu_def_ g;
     button_list_ := set_visible_in (button_list_ g) id v;
     image_list_ := image_list_ g; current_focus_ := current_focus_ g;
     unhandled_selections_ := unhandled_selections_ g |}.

(** *** Asset preload *)

(** What [LoadAssets] asks of the material manager, in program order. *)
Inductive LoadCall :=
  | CallLoadShader (name : string)
  | CallLoadMaterial (name : string).

(** A loop loading the material of every texture of a vector. *)
Fixpoint LoadAssets_textures (textures : list ButtonTexture.t)
    : list LoadCall :=
  match textures with
  | [] => []
  | texture :: rest =>
      CallLoadMaterial (TextureName texture) :: LoadAssets_textures rest
  end.

(** The body of the loop of [LoadAssets] over the declared buttons. *)
Definition LoadAssets_button (button : ButtonDef.t) : list LoadCall :=
  LoadAssets_textures (ArrayElements (ButtonDef.texture_normal button))
  ++ match ButtonDef.texture_pressed button with
     | Some texture => [CallLoadMaterial (TextureName texture)]
     | None => []
     end
  ++ match ButtonDef.shader button with
     | Some name => [CallLoadShader name]
     | None => []
     end
  ++ match ButtonDef.inactive_shader button with
     | Some name => [CallLoadShader name]
     | None => []
     end.

Fixpoint LoadAssets_buttons (buttons : list ButtonDef.t) : list LoadCall :=
  match buttons with
  | [] => []
  | button :: rest => LoadAssets_button button ++ LoadAssets_buttons rest
  end.

(** The body of the loop of [LoadAssets] over the static images.  The
    texture vector of an image is never null here ([Setup] reads its
    length unguarded), so [ArrayLength] of it is its length. *)
Definition LoadAssets_image (image_def : StaticImageDef.t) : list LoadCall :=
  LoadAssets_textures (StaticImageDef.texture image_def)
  ++ match StaticImageDef.shader image_def with
     | Some name => [CallLoadShader name]
     | None => []
     end.

Fixpoint LoadAssets_images (images : list StaticImageDef.t) : list LoadCall :=
  match images with
  | [] => []
  | image_def :: rest => LoadAssets_image image_def ++ LoadAssets_images rest
  end.

(** [LoadAssets]: the calls made on the material manager.  The menu is
    neither read nor written. *)
Definition LoadAssets (menu_def : UiGroup.t) : list LoadCall :=
  [CallLoadShader (UiGroup.default_shader menu_def);
   CallLoadShader (UiGroup.default_inactive_shader menu_def)]
  ++ LoadAssets_buttons (ArrayElements (UiGroup.button_list menu_def))
  ++ LoadAssets_images (ArrayElements (UiGroup.static_image_list menu_def)).

(** *** Rendering *)

(** What [Render] hands to the renderer, in program order. *)
Inductive DrawCall :=
  | RenderImage (image : StaticImage.t)
  | RenderButton (button : TouchscreenButton.t).

(** One pass of [Render] over the images: those whose definition has
    [render_after_buttons] equal to [after] are drawn.  [None] is a null
    [image_def()] being dereferenced. *)
Fixpoint Render_images (after : bool) (images : list StaticImage.t)
    : option (list DrawCall) :=
  match images with
  | [] => Some []
  | image :: rest =>
      d ← StaticImage.image_def image;
      calls ← Render_images after rest;
      Some (if bool_decide (StaticImageDef.render_after_buttons d = after)
            then RenderImage image :: calls
            else calls)
  end.

Definition Render (g : GuiMenu) : option (list DrawCall) :=
  before ← Render_images false (image_list_ g);
  after ← Render_images true (image_list_ g);
  Some (before ++ (RenderButton <$> button_list_ g) ++ after).

(** *** Notions used in the statements on setup and rendering *)

(** An effect of [Setup] that is a log line. *)
Definition is_log (e : Effect) : bool :=
  match e with
  | SDL_LogInfo _ | SDL_LogError _ _ => true
  | CallFindMaterial _ | CallFindShader _ => false
  end.

(** The queue of the menu replaced. *)
Definition with_queue (queue : list MenuSelection) (g : GuiMenu) : GuiMenu :=
  {| menu_def_ := menu_def_ g; button_list_ := button_list_ g;
     image_list_ := image_list_ g; current_focus_ := current_focus_ g;
     unhandled_selections_ := queue |}.

(** [g'] comes from [g] by navigation and queueing: the widgets, the
    images and the definition are those of [g]; the queue is the queue
    of [g] followed by at most [n] events; the focus is that of [g] or
    the identity of a widget of [g] that is visible. *)
Definition navigated (n : nat) (g g' : GuiMenu) : Prop :=
  menu_def_ g' = menu_def_ g
  ∧ button_list_ g' = button_list_ g
  ∧ image_list_ g' = image_list_ g
  ∧ (∃ new, unhandled_selections_ g' = unhandled_selections_ g ++ new
            ∧ length new ≤ n)
  ∧ (current_focus_ g' = current_focus_ g
     ∨ ∃ b, b ∈ button_list_ g
            ∧ TouchscreenButton.GetId b = current_focus_ g'
            ∧ TouchscreenButton.is_visible b = true).

(** The name of the shader [Setup] looks up for a button, for its
    inactive state, and for a static image. *)
Definition button_shader_name (menu_def : UiGroup.t) (button : ButtonDef.t)
    : string :=
  match ButtonDef.shader button with
  | None => UiGroup.default_shader menu_def
  | Some name => name
  end.

Definition button_inactive_shader_name (menu_def : UiGroup.t)
    (button : ButtonDef.t) : string :=
  match ButtonDef.inactive_shader button with
  | None => UiGroup.default_inactive_shader menu_def
  | Some name => name
  end.

Definition image_shader_name (menu_def : UiGroup.t)
    (image_def : StaticImageDef.t) : string :=
  match StaticImageDef.shader image_def with
  | None => UiGroup.default_shader menu_def
  | Some name => name
  end.

(** The effects of [Setup] for one declared button. *)
Definition button_effects (matman : MaterialManager) (menu_def : UiGroup.t)
    (button : ButtonDef.t) : list Effect :=
  ((λ texture, CallFindMaterial (TextureName texture))
     <$> ArrayElements (ButtonDef.texture_normal button))
  ++ match ButtonDef.texture_pressed button with
     | Some texture => [CallFindMaterial (TextureName texture)]
     | None => []
     end
  ++ [CallFindShader (button_shader_name menu_def button);
      CallFindShader (button_inactive_shader_name menu_def button)]
  ++ match FindShader matman (button_shader_name menu_def button) with
     | None => [SDL_LogInfo "Buttons used in menus must specify a shader!"]
     | Some _ => []
     end.

(** The effects of [Setup] for one texture of a static image. *)
Definition image_texture_effects (matman : MaterialManager)
    (texture : ButtonTexture.t) : list Effect :=
  CallFindMaterial (TextureName texture)
  :: match FindMaterial matman (TextureName texture) with
     | None => [SDL_LogError "Static image '%s' not found" (TextureName texture)]
     | Some _ => []
     end.

(** The effects of [Setup] for one declared static image. *)
Definition image_effects (matman : MaterialManager) (menu_def : UiGroup.t)
    (image_def : StaticImageDef.t) : list Effect :=
  (StaticImageDef.texture image_def ≫= image_texture_effects matman)
  ++ CallFindShader (image_shader_name menu_def image_def)
  :: match FindShader matman (image_shader_name menu_def image_def) with
     | None => [SDL_LogError "Static image missing shader '%s'"
                  (image_shader_name menu_def image_def)]
     | Some _ => []
     end.

(** The image [Setup] initialises from one declared static image. *)
Definition built_image (matman : MaterialManager) (menu_def : UiGroup.t)
    (image_def : StaticImageDef.t) : StaticImage.t :=
  StaticImage.Initialize image_def
    ((λ texture, FindMaterial matman (TextureName texture))
       <$> StaticImageDef.texture image_def)
    (FindShader matman (image_shader_name menu_def image_def))
    (UiGroup.cannonical_window_height menu_def)
    StaticImage.new.

End GuiMenu.

(** ** A concrete platform and a concrete menu

    One choice of values for the constants the missing headers declare,
    and a small menu, on which the embedding is run.  Handles are the
    names of the assets; the input of a frame is the list of the widgets
    a pointer went down on. *)

Definition sample_platform : Platform :=
  {| ButtonId_Undefined := 0%N;
     ButtonId_InvalidInput := 1%N;
     ButtonId_Cancel := 2%N;
     kTouchController := (-2)%Z;
     kUndefinedController := (-1)%Z;
     LogicalInputs_Up := 1%Z;
     LogicalInputs_Down := 2%Z;
     LogicalInputs_Left := 4%Z;
     LogicalInputs_Right := 8%Z;
     LogicalInputs_Select := 64%Z;
     LogicalInputs_Cancel := 128%Z;
     TouchScreenDevice := false;
     Material := string;
     Shader := string;
     WorldTime := Z;
     InputSystem := list ButtonId;
     vec2 := Z * Z;
     TouchState := bool;
     TouchState_init := false |}.

Section Sample.
#[local] Existing Instance sample_platform.

(** A widget is pressed in a frame when the input names it, and reports
    a trigger when pressed. *)
Definition sample_widget : @Widget sample_platform :=
  {| TouchscreenButton_AdvanceFrame := λ _ input _ b,
       TouchscreenButton.set_touch
         (bool_decide (TouchscreenButton.GetId b ∈ (input : list ButtonId))) b;
     IsTriggered := TouchscreenButton.touch |}.

#[local] Existing Instance sample_widget.

(** Every asset is found. *)
Definition sample_matman : MaterialManager :=
  {| FindMaterial := λ name, Some name; FindShader := λ name, Some name |}.

(** No asset is found. *)
Definition failing_matman : MaterialManager :=
  {| FindMaterial := λ _, None; FindShader := λ _, None |}.

(** Button A (identity 10): active at start, its up neighbour is B. *)
Definition button_A : ButtonDef.t :=
  {| ButtonDef.ID := 10%N; ButtonDef.starts_active := 1%Z;
     ButtonDef.nav_up := Some [11%N]; ButtonDef.nav_down := None;
     ButtonDef.nav_left := None; ButtonDef.nav_right := None;
     ButtonDef.texture_normal :=
       Some [{| ButtonTexture.standard := "button_a.webp";
                ButtonTexture.touch_screen := None |}];
     ButtonDef.texture_pressed :=
       Some {| ButtonTexture.standard := "button_a_down.webp";
               ButtonTexture.touch_screen := None |};
     ButtonDef.shader := None; ButtonDef.inactive_shader := None |}.

(** Button B (identity 11): not active at start, its down neighbour is A. *)
Definition button_B : ButtonDef.t :=
  {| ButtonDef.ID := 11%N; ButtonDef.starts_active := 0%Z;
     ButtonDef.nav_up := None; ButtonDef.nav_down := Some [10%N];
     ButtonDef.nav_left := None; ButtonDef.nav_right := None;
     ButtonDef.texture_normal := None; ButtonDef.texture_pressed := None;
     ButtonDef.shader := Some "shaders/button";
     ButtonDef.inactive_shader := None |}.

Definition background_image : StaticImageDef.t :=
  {| StaticImageDef.ID := 20%N;
     StaticImageDef.texture :=
       [{| ButtonTexture.standard := "background.webp";
           ButtonTexture.touch_screen := None |}];
     StaticImageDef.shader := None;
     StaticImageDef.render_after_buttons := false |}.

(** A menu of the two buttons and one image, starting on A. *)
Definition sample_menu_def : UiGroup.t :=
  {| UiGroup.cannonical_window_height := 1080%Z;
     UiGroup.starting_selection := 10%N;
     UiGroup.default_shader := "shaders/textured";
     UiGroup.default_inactive_shader := "shaders/grayscale";
     UiGroup.button_list := Some [button_A; button_B];
     UiGroup.static_image_list := Some [background_image] |}.

(** A menu on which [Setup] was never called. *)
Definition empty_menu : GuiMenu :=
  {| menu_def_ := None; button_list_ := []; image_list_ := [];
     current_focus_ := 0%N; unhandled_selections_ := [] |}.

(** The menu [Setup] builds from [sample_menu_def]. *)
Definition sample_menu : GuiMenu :=
  match Setup (Some sample_menu_def) sample_matman empty_menu with
  | Some (g, _) => g
  | None => empty_menu
  end.

(** The same menu with two events left in the queue by the host. *)
Definition undrained_menu : GuiMenu :=
  push (MkMenuSelection 2%N 1%Z) (push (MkMenuSelection 10%N 0%Z) sample_menu).

End Sample.

(** ** Properties *)

Section Properties.
Context `{Widget}.

Implicit Types (g : GuiMenu) (b : TouchscreenButton.t) (id : ButtonId).

(** *** Lookup *)

Lemma find_button_Some buttons id b :
  find_button buttons id = Some b →
  b ∈ buttons ∧ TouchscreenButton.GetId b = id.
Proof.
  induction buttons as [|b' rest IH]; simpl; [done|].
  case_bool_decide as Hid.
  - intros [= ->]. split; [left | done].
  - intros Hrest. destruct (IH Hrest) as [Hin Heq]. split; [by right | done].
Qed.

Lemma find_button_None buttons id :
  find_button buttons id = None ↔
  ∀ b, b ∈ buttons → TouchscreenButton.GetId b ≠ id.
Proof.
  induction buttons as [|b' rest IH]; simpl.
  - split; [|done]. intros _ b Hb. by apply elem_of_nil in Hb.
  - case_bool_decide as Hid.
    + split; [done|]. intros Hall. destruct (Hall b'); [left | done].
    + rewrite IH. split.
      * intros Hall b Hb. apply elem_of_cons in Hb as [-> | Hb]; [done|].
        by apply Hall.
      * intros Hall b Hb. apply Hall. by right.
Qed.

(** With pairwise distinct identities the lookup finds every widget. *)
Lemma find_button_NoDup buttons b :
  NoDup (TouchscreenButton.GetId <$> buttons) →
  b ∈ buttons →
  find_button buttons (TouchscreenButton.GetId b) = Some b.
Proof.
  induction buttons as [|b' rest IH]; simpl.
  - intros _ Hb. by apply elem_of_nil in Hb.
  - intros Hnd Hb.
    pose proof (NoDup_cons_1_1 _ _ Hnd) as Hfresh.
    apply NoDup_cons_1_2 in Hnd.
    case_bool_decide as Hid.
    + apply elem_of_cons in Hb as [-> | Hb]; [done|].
      exfalso. apply Hfresh. rewrite Hid. by apply list_elem_of_fmap_2.
    + apply elem_of_cons in Hb as [-> | Hb]; [done|]. by apply IH.
Qed.

(** Under distinct identities, resolving to a visible widget is the
    same as some visible widget carrying the identity. *)
Lemma visible_destination_NoDup g id :
  NoDup (TouchscreenButton.GetId <$> button_list_ g) →
  visible_destination g id = true ↔
  ∃ b, b ∈ button_list_ g ∧ TouchscreenButton.GetId b = id
       ∧ TouchscreenButton.is_visible b = true.
Proof.
  intros Hnd. unfold visible_destination, FindButtonById. split.
  - destruct (find_button (button_list_ g) id) as [b|] eqn:Hfind; [|done].
    intros Hvis. apply find_button_Some in Hfind as [Hin Hid]. eauto.
  - intros (b & Hin & <- & Hvis). by rewrite (find_button_NoDup _ _ Hnd Hin).
Qed.

(** *** Navigation *)

Lemma UpdateFocus_scan_first g (before : list N) (d : N) (after : list N) :
  no_visible_destination g before = true →
  visible_destination g d = true →
  UpdateFocus_scan g (before ++ d :: after) = Some d.
Proof.
  unfold no_visible_destination, visible_destination.
  induction before as [|x before IH]; simpl.
  - intros _ Hd. by destruct (FindButtonById g d) as [b|]; [rewrite Hd|].
  - intros Hbefore Hd. apply andb_prop in Hbefore as [Hx Hbefore].
    destruct (FindButtonById g x) as [b|]; [|by apply IH].
    apply negb_true_iff in Hx. rewrite Hx. by apply IH.
Qed.

Lemma UpdateFocus_scan_none g (destinations : list N) :
  no_visible_destination g destinations = true →
  UpdateFocus_scan g destinations = None.
Proof.
  unfold no_visible_destination, visible_destination.
  induction destinations as [|x rest IH]; simpl; [done|].
  intros Hall. apply andb_prop in Hall as [Hx Hrest].
  destruct (FindButtonById g x) as [b|]; [|by apply IH].
  apply negb_true_iff in Hx. rewrite Hx. by apply IH.
Qed.

Lemma UpdateFocus_scan_Some g (destinations : list N) (d : N) :
  UpdateFocus_scan g destinations = Some d →
  d ∈ destinations ∧ visible_destination g d = true.
Proof.
  unfold visible_destination.
  induction destinations as [|x rest IH]; simpl; [done|].
  destruct (FindButtonById g x) as [b|] eqn:Hfind.
  - destruct (TouchscreenButton.is_visible b) eqn:Hvis.
    + intros [= <-]. rewrite Hfind. split; [left | done].
    + intros Hrest. destruct (IH Hrest). split; [by right | done].
  - intros Hrest. destruct (IH Hrest). split; [by right | done].
Qed.

(** C1.  [UpdateFocus] on an ordered list of destinations.  When some
    destination resolves to a visible widget, the focus becomes the first
    such destination, whatever follows it in the list, and the queue is
    left as it was.  When the list is absent, empty, or holds no
    destination that resolves to a visible widget, the focus is left as
    it was and exactly one event (invalid input, touch controller) is
    appended to the queue.  In every case the new focus is the old one
    or the identity of a widget of the collection that is visible. *)
Theorem UpdateFocus_first_visible g :
  (∀ (before : list N) (d : N) (after : list N),
     no_visible_destination g before = true →
     visible_destination g d = true →
     UpdateFocus (Some (before ++ d :: after)) g =
       {| menu_def_ := menu_def_ g; button_list_ := button_list_ g;
          image_list_ := image_list_ g; current_focus_ := d;
          unhandled_selections_ := unhandled_selections_ g |})
  ∧ (∀ destination_list : option (list N),
       no_visible_destination g (ArrayElements destination_list) = true →
       UpdateFocus destination_list g =
         {| menu_def_ := menu_def_ g; button_list_ := button_list_ g;
            image_list_ := image_list_ g; current_focus_ := current_focus_ g;
            unhandled_selections_ :=
              unhandled_selections_ g
              ++ [MkMenuSelection ButtonId_InvalidInput kTouchController] |})
  ∧ (∀ destination_list : option (list N),
       current_focus_ (UpdateFocus destination_list g) = current_focus_ g
       ∨ ∃ b, b ∈ button_list_ g
              ∧ TouchscreenButton.GetId b
                = current_focus_ (UpdateFocus destination_list g)
              ∧ TouchscreenButton.is_visible b = true).
Proof.
  repeat split.
  - intros before d after Hbefore Hd. unfold UpdateFocus. simpl.
    by rewrite (UpdateFocus_scan_first _ _ _ _ Hbefore Hd).
  - intros [destinations|] Hnone; unfold UpdateFocus; simpl; [|done].
    simpl in Hnone. by rewrite (UpdateFocus_scan_none _ _ Hnone).
  - intros destination_list. unfold UpdateFocus.
    destruct (destination_list ≫= UpdateFocus_scan g) as [d|] eqn:Hscan;
      [|by left].
    right. destruct destination_list as [destinations|]; [|done].
    simpl in Hscan. apply UpdateFocus_scan_Some in Hscan as [_ Hvisible].
    unfold visible_destination, FindButtonById in Hvisible.
    destruct (find_button (button_list_ g) d) as [b|] eqn:Hfind; [|done].
    apply find_button_Some in Hfind as [Hin Hid]. by exists b.
Qed.

(** *** Per-frame advance *)

Lemma AdvanceFrame_buttons_spec delta_time input window_size focus
    (buttons : list TouchscreenButton.t) (queue : list MenuSelection) :
  AdvanceFrame_buttons delta_time input window_size focus buttons queue =
    (advanced_button delta_time input window_size focus <$> buttons,
     queue ++ ((advanced_button delta_time input window_size focus <$> buttons)
               ≫= trigger_events)).
Proof.
  revert queue. induction buttons as [|b rest IH]; intros queue; simpl.
  - by rewrite app_nil_r.
  - rewrite IH. f_equal. fold (advanced_button delta_time input window_size focus b).
    unfold trigger_events at 2, touch_selection.
    destruct (IsTriggered _); simpl; [|done]. by rewrite <- app_assoc.
Qed.

Lemma trigger_events_filter (buttons : list TouchscreenButton.t) :
  buttons ≫= trigger_events =
    (λ b, MkMenuSelection
            (if TouchscreenButton.is_active b then TouchscreenButton.GetId b
             else ButtonId_InvalidInput)
            kTouchController)
    <$> filter (λ b, Is_true (IsTriggered b)) buttons.
Proof.
  induction buttons as [|b rest IH]; [done|].
  rewrite bind_cons, IH. unfold trigger_events.
  destruct (IsTriggered b) eqn:Htrig.
  - rewrite filter_cons_True; [done | by apply Is_true_true].
  - rewrite filter_cons_False; [done | by apply Is_true_false].
Qed.

(** Draining a menu whose queue is [queue]: its events in order, then
    the empty-queue answer for every further call. *)
Lemma drain_queue (n : nat) g :
  length (unhandled_selections_ g) ≤ n →
  (drain n g).1 =
    unhandled_selections_ g
    ++ replicate (n - length (unhandled_selections_ g)) no_selection.
Proof.
  revert g. induction n as [|n IH]; intros g Hlen; simpl.
  - destruct (unhandled_selections_ g); [done | simpl in Hlen; lia].
  - unfold GetRecentSelection.
    destruct (unhandled_selections_ g) as [|e rest] eqn:Hqueue.
    + specialize (IH g). rewrite Hqueue in IH. simpl in IH.
      destruct (drain n g) as [es g'] eqn:Hdrain. simpl in *.
      rewrite IH; [|lia]. by rewrite Nat.sub_0_r.
    + match goal with
      | |- context [drain n ?g1] => specialize (IH g1); destruct (drain n g1)
      end.
      simpl in *. rewrite IH; [done | lia].
Qed.

(** C2.  [AdvanceFrame] starts from an empty queue whatever the queue
    held before: afterwards the queue holds exactly the events of the
    widgets that report a trigger, in collection order.  With [M] such
    widgets, [N >= M] successive calls of [GetRecentSelection] return
    these [M] events in that order, and then [N - M] times the event
    (undefined identity, undefined controller). *)
Theorem AdvanceFrame_queue_fresh delta_time input window_size g (N : nat) :
  let g' := AdvanceFrame delta_time input window_size g in
  let triggered := filter (λ b, Is_true (IsTriggered b)) (button_list_ g') in
  let event b :=
    MkMenuSelection
      (if TouchscreenButton.is_active b then TouchscreenButton.GetId b
       else ButtonId_InvalidInput)
      kTouchController in
  unhandled_selections_ g' = event <$> triggered
  ∧ (length triggered ≤ N →
     (drain N g').1 =
       (event <$> triggered)
       ++ replicate (N - length triggered)
            (MkMenuSelection ButtonId_Undefined kUndefinedController)).
Proof.
  intros g' triggered event.
  assert (unhandled_selections_ g' = event <$> triggered) as Hqueue.
  { subst g' triggered event. unfold AdvanceFrame. simpl.
    rewrite AdvanceFrame_buttons_spec. simpl.
    by rewrite trigger_events_filter. }
  split; [done|]. intros Hlen.
  rewrite drain_queue; rewrite Hqueue, length_fmap; done.
Qed.

(** C3.  After [AdvanceFrame] every widget has been advanced and
    re-highlighted in place, and the queue is the concatenation, in
    collection order, of what each widget contributes: one event tagged
    with the touch controller, carrying the widget's identity when it is
    active and the invalid-input identity otherwise, for a widget that
    reports a trigger; nothing for a widget that does not. *)
Theorem AdvanceFrame_trigger_events delta_time input window_size g :
  let g' := AdvanceFrame delta_time input window_size g in
  button_list_ g' =
    (λ b,
       let b' := TouchscreenButton_AdvanceFrame delta_time input window_size b in
       TouchscreenButton.set_is_highlighted
         (bool_decide (current_focus_ g = TouchscreenButton.GetId b')) b')
    <$> button_list_ g
  ∧ unhandled_selections_ g' =
      button_list_ g' ≫=
        (λ b, if IsTriggered b
              then [MkMenuSelection
                      (if TouchscreenButton.is_active b
                       then TouchscreenButton.GetId b
                       else ButtonId_InvalidInput)
                      kTouchController]
              else []).
Proof.
  intros g'. subst g'. unfold AdvanceFrame. simpl.
  rewrite AdvanceFrame_buttons_spec. simpl. done.
Qed.

(** *** The queue and the focus *)

Lemma drain_empty (n : nat) g :
  unhandled_selections_ g = [] → drain n g = (replicate n no_selection, g).
Proof.
  intros Hempty. induction n as [|n IH]; simpl; [done|].
  unfold GetRecentSelection. by rewrite Hempty, IH.
Qed.

(** C9.  [GetRecentSelection] on a queue with front [e] returns [e] and
    leaves the rest of the queue; on an empty queue it returns the event
    (undefined identity, undefined controller) and the menu is left as
    it was, so any number of successive calls on an empty queue return
    that event each time and change nothing. *)
Theorem GetRecentSelection_front_or_sentinel g :
  (∀ e rest,
     unhandled_selections_ g = e :: rest →
     GetRecentSelection g =
       (e, {| menu_def_ := menu_def_ g; button_list_ := button_list_ g;
              image_list_ := image_list_ g;
              current_focus_ := current_focus_ g;
              unhandled_selections_ := rest |}))
  ∧ (unhandled_selections_ g = [] →
     GetRecentSelection g =
       (MkMenuSelection ButtonId_Undefined kUndefinedController, g)
     ∧ ∀ n : nat,
         drain n g =
           (replicate n
              (MkMenuSelection ButtonId_Undefined kUndefinedController), g)).
Proof.
  split.
  - intros e rest Hqueue. unfold GetRecentSelection. by rewrite Hqueue.
  - intros Hempty. split.
    + unfold GetRecentSelection. by rewrite Hempty.
    + intros n. by apply drain_empty.
Qed.

(** C10.  [SetFocus] stores the identity it is given, whether or not a
    widget carries it: [GetFocus] then returns it, and the widgets, the
    images, the queue and the menu definition are left as they were. *)
Theorem SetFocus_stores_any_identity id g :
  GetFocus (SetFocus id g) = id
  ∧ button_list_ (SetFocus id g) = button_list_ g
  ∧ image_list_ (SetFocus id g) = image_list_ g
  ∧ unhandled_selections_ (SetFocus id g) = unhandled_selections_ g
  ∧ menu_def_ (SetFocus id g) = menu_def_ g.
Proof. by repeat split. Qed.

(** *** Setup *)

(** C8.  [Setup] with a null definition succeeds, performs no effect
    (no call on the material manager, no log line), and leaves no
    widget, no image, the undefined identity as focus and an empty
    queue. *)
Theorem Setup_null_clears matman g :
  ∃ g',
    Setup None matman g = Some (g', [])
    ∧ button_list_ g' = []
    ∧ image_list_ g' = []
    ∧ current_focus_ g' = ButtonId_Undefined
    ∧ unhandled_selections_ g' = [].
Proof.
  eexists. split; [reflexivity|]. simpl.
  repeat split; apply resize_0.
Qed.

Lemma Setup_buttons_spec matman menu_def (i : nat)
    (buttons : list ButtonDef.t) (button_list : list TouchscreenButton.t) :
  length button_list = i + length buttons →
  (Setup_buttons matman menu_def i buttons button_list).1 =
    take i button_list
    ++ ((λ button, (Setup_button matman menu_def button).1) <$> buttons).
Proof.
  revert i button_list.
  induction buttons as [|button rest IH]; intros i button_list Hlen; simpl.
  - rewrite app_nil_r, take_ge; [done|]. simpl in Hlen. lia.
  - simpl in Hlen. rewrite IH; [|rewrite length_insert; lia].
    rewrite (take_S_r _ _ (Setup_button matman menu_def button).1);
      [|apply list_lookup_insert_eq; lia].
    rewrite take_insert_ge; [|lia]. by rewrite <- app_assoc.
Qed.

Lemma Setup_images_length matman menu_def (i : nat)
    (images : list StaticImageDef.t) (image_list : list StaticImage.t) :
  length (Setup_images matman menu_def i images image_list).1
  = length image_list.
Proof.
  revert i image_list.
  induction images as [|image_def rest IH]; intros i image_list; simpl;
    [done|].
  by rewrite IH, length_alter.
Qed.

Lemma Setup_button_highlighted matman menu_def button :
  TouchscreenButton.is_highlighted (Setup_button matman menu_def button).1
  = true.
Proof. done. Qed.

Lemma Setup_button_GetId matman menu_def button :
  TouchscreenButton.GetId (Setup_button matman menu_def button).1
  = ButtonDef.ID button.
Proof. done. Qed.

(** The widgets [Setup] builds from a definition. *)
Lemma Setup_button_list def matman g :
  (0 < UiGroup.cannonical_window_height def)%Z →
  ∃ g' trace,
    Setup (Some def) matman g = Some (g', trace)
    ∧ button_list_ g' =
        (λ button, (Setup_button matman def button).1)
        <$> ArrayElements (UiGroup.button_list def)
    ∧ length (image_list_ g') = ArrayLength (UiGroup.static_image_list def)
    ∧ current_focus_ g' = UiGroup.starting_selection def
    ∧ unhandled_selections_ g' = [].
Proof.
  intros Hheight. unfold Setup. rewrite decide_True by done.
  eexists _, _. split; [reflexivity|]. simpl.
  rewrite Setup_buttons_spec, Setup_images_length, length_resize.
  - by repeat split.
  - rewrite length_resize. by destruct (UiGroup.button_list def).
Qed.

(** C7.  For a definition with a positive canonical window height,
    declaring [N] buttons and [M] static images, and for every material
    manager (so whichever lookups return null), [Setup] succeeds and
    leaves exactly [N] widgets and [M] images. *)
Theorem Setup_collection_sizes def matman g :
  (0 < UiGroup.cannonical_window_height def)%Z →
  ∃ g' trace,
    Setup (Some def) matman g = Some (g', trace)
    ∧ length (button_list_ g') = ArrayLength (UiGroup.button_list def)
    ∧ length (image_list_ g') = ArrayLength (UiGroup.static_image_list def).
Proof.
  intros Hheight.
  destruct (Setup_button_list def matman g Hheight)
    as (g' & trace & Hsetup & Hbuttons & Himages & _).
  exists g', trace. repeat split; [done | | done].
  rewrite Hbuttons, length_fmap. by destruct (UiGroup.button_list def).
Qed.

(** *** Highlight *)

Lemma advanced_button_highlight delta_time input window_size focus b :
  let b' := advanced_button delta_time input window_size focus b in
  TouchscreenButton.is_highlighted b' = true
  ↔ TouchscreenButton.GetId b' = focus.
Proof.
  simpl. unfold advanced_button. simpl.
  rewrite bool_decide_eq_true.
  unfold TouchscreenButton.GetId. simpl. split; congruence.
Qed.

(** C6, as the code has it.  After every [AdvanceFrame] each widget's
    highlight flag is true exactly when its identity is the current
    focus.  After [Setup] with a definition of positive canonical window
    height, every widget's highlight flag is true, whatever the focus. *)
Theorem highlight_after_AdvanceFrame_and_Setup :
  (∀ delta_time input window_size g,
     highlight_tracks_focus (AdvanceFrame delta_time input window_size g))
  ∧ (∀ def matman g,
       (0 < UiGroup.cannonical_window_height def)%Z →
       ∃ g' trace,
         Setup (Some def) matman g = Some (g', trace)
         ∧ Forall (λ b, TouchscreenButton.is_highlighted b = true)
             (button_list_ g')).
Proof.
  split.
  - intros delta_time input window_size g.
    unfold highlight_tracks_focus, AdvanceFrame. simpl.
    rewrite AdvanceFrame_buttons_spec. simpl.
    apply Forall_fmap, Forall_forall. intros b _.
    apply advanced_button_highlight.
  - intros def matman g Hheight.
    destruct (Setup_button_list def matman g Hheight)
      as (g' & trace & Hsetup & Hbuttons & _).
    exists g', trace. split; [done|]. rewrite Hbuttons.
    apply Forall_fmap, Forall_forall. intros button _.
    apply Setup_button_highlighted.
Qed.

(** *** Controller input *)

Lemma FindButtonById_focus_missing g :
  focus_missing g ↔ FindButtonById g (current_focus_ g) = None.
Proof.
  unfold focus_missing, FindButtonById.
  by rewrite find_button_None, Forall_forall.
Qed.

(** C5, as the code has it.  When no widget of the collection carries
    the identity in focus, [HandleControllerInput] succeeds and leaves
    the menu (focus, widgets, images, queue) exactly as it was, for
    every input mask and controller. *)
Theorem HandleControllerInput_focus_missing g
    (logical_input : Z) (controller : ControllerId) :
  focus_missing g →
  HandleControllerInput logical_input controller g = Some g.
Proof.
  intros Hmissing. apply FindButtonById_focus_missing in Hmissing.
  unfold HandleControllerInput. by rewrite Hmissing.
Qed.

(** The mask converted to [uint32_t] asserts the same signals. *)
Lemma asserted_uint32 (logical_input mask : Z) :
  (0 ≤ logical_input < 2 ^ 32)%Z →
  asserted logical_input (mask mod 2 ^ 32) = asserted logical_input mask.
Proof.
  intros Hrange. unfold asserted. f_equal. f_equal.
  rewrite <- (Z.land_ones mask 32) by lia.
  rewrite (Z.land_comm mask), Z.land_assoc, Z.land_ones by lia.
  by rewrite Z.mod_small.
Qed.

(** With no direction asserted, the select and cancel signals append, in
    this order, the focused widget's identity (or the invalid-input
    identity when it is not active) and the cancel identity, both tagged
    with the controller. *)
Lemma HandleControllerInput_select_cancel g b
    (logical_input : Z) (controller : ControllerId) :
  FindButtonById g (current_focus_ g) = Some b →
  asserted logical_input LogicalInputs_Up = false →
  asserted logical_input LogicalInputs_Down = false →
  asserted logical_input LogicalInputs_Left = false →
  asserted logical_input LogicalInputs_Right = false →
  HandleControllerInput logical_input controller g =
    Some
      {| menu_def_ := menu_def_ g; button_list_ := button_list_ g;
         image_list_ := image_list_ g; current_focus_ := current_focus_ g;
         unhandled_selections_ :=
           unhandled_selections_ g
           ++ (if asserted logical_input LogicalInputs_Select
               then [MkMenuSelection
                       (if TouchscreenButton.is_active b
                        then TouchscreenButton.GetId b
                        else ButtonId_InvalidInput)
                       controller]
               else [])
           ++ (if asserted logical_input LogicalInputs_Cancel
               then [MkMenuSelection ButtonId_Cancel controller]
               else []) |}.
Proof.
  intros Hfocus Hup Hdown Hleft Hright.
  unfold HandleControllerInput. rewrite Hfocus, Hup, Hdown, Hleft, Hright.
  apply find_button_Some in Hfocus as [_ ->]. simpl.
  destruct g as [def buttons images focus queue]. unfold push. simpl.
  destruct (asserted logical_input LogicalInputs_Select),
    (asserted logical_input LogicalInputs_Cancel); simpl;
    rewrite ?app_nil_r, <- ?app_assoc; done.
Qed.

(** With up and select asserted and no other direction, when the up
    list of the focused widget [b] leads to [d], the focus moves to [d]
    and the select signal queues [d], the new focus, under the
    activation flag of [b], the widget that held the focus before. *)
Lemma HandleControllerInput_up_then_select g b (def : ButtonDef.t)
    (before : list N) (d : N) (after : list N)
    (logical_input : Z) (controller : ControllerId) :
  FindButtonById g (current_focus_ g) = Some b →
  TouchscreenButton.button_def b = Some def →
  ButtonDef.nav_up def = Some (before ++ d :: after) →
  no_visible_destination g before = true →
  visible_destination g d = true →
  asserted logical_input LogicalInputs_Up = true →
  asserted logical_input LogicalInputs_Down = false →
  asserted logical_input LogicalInputs_Left = false →
  asserted logical_input LogicalInputs_Right = false →
  asserted logical_input LogicalInputs_Select = true →
  asserted logical_input LogicalInputs_Cancel = false →
  HandleControllerInput logical_input controller g =
    Some
      {| menu_def_ := menu_def_ g; button_list_ := button_list_ g;
         image_list_ := image_list_ g; current_focus_ := d;
         unhandled_selections_ :=
           unhandled_selections_ g
           ++ [MkMenuSelection
                 (if TouchscreenButton.is_active b then d
                  else ButtonId_InvalidInput)
                 controller] |}.
Proof.
  intros Hfocus Hdef Hnav Hbefore Hd Hup Hdown Hleft Hright Hselect Hcancel.
  unfold HandleControllerInput.
  rewrite Hfocus, Hdef, Hup, Hdown, Hleft, Hright, Hselect, Hcancel. simpl.
  rewrite Hnav. unfold UpdateFocus. simpl.
  by rewrite (UpdateFocus_scan_first _ _ _ _ Hbefore Hd).
Qed.

End Properties.

(** ** The embedding run on the concrete menu *)

Section Concrete.
#[local] Existing Instance sample_platform.
#[local] Existing Instance sample_widget.

(** Scenario: A visible with up neighbour B, B invisible, focus on A; an
    up command leaves the focus on A and queues one invalid-input event. *)
Example up_to_invisible_neighbour :
  let g := set_button_visible 11%N false sample_menu in
  HandleControllerInput LogicalInputs_Up 1%Z g =
    Some (push (MkMenuSelection ButtonId_InvalidInput kTouchController) g).
Proof. reflexivity. Qed.

(** Scenario: the same with B visible; the focus moves to B and nothing
    is queued. *)
Example up_to_visible_neighbour :
  HandleControllerInput LogicalInputs_Up 1%Z sample_menu =
    Some (SetFocus 11%N sample_menu).
Proof. reflexivity. Qed.

(** Scenario: select and cancel together on the focused active widget A
    queue A's identity and then the cancel identity, for the controller. *)
Example select_and_cancel_together :
  HandleControllerInput (Z.lor LogicalInputs_Select LogicalInputs_Cancel)
    1%Z sample_menu =
    Some (push (MkMenuSelection ButtonId_Cancel 1%Z)
            (push (MkMenuSelection 10%N 1%Z) sample_menu)).
Proof. reflexivity. Qed.

(** Scenario: A (active) and B (not active) both triggered by touch in
    one frame queue A's identity and then the invalid-input identity. *)
Example touch_on_active_and_inactive :
  unhandled_selections_
    (AdvanceFrame 16%Z [10%N; 11%N] (1920, 1080)%Z undrained_menu) =
    [MkMenuSelection 10%N kTouchController;
     MkMenuSelection ButtonId_InvalidInput kTouchController].
Proof. reflexivity. Qed.

Lemma UpdateFocus_first_visible_witness :
  (no_visible_destination sample_menu [99%N] = true
   ∧ visible_destination sample_menu 11%N = true
   ∧ UpdateFocus (Some ([99%N] ++ 11%N :: [10%N])) sample_menu =
       {| menu_def_ := menu_def_ sample_menu;
          button_list_ := button_list_ sample_menu;
          image_list_ := image_list_ sample_menu;
          current_focus_ := 11%N;
          unhandled_selections_ := unhandled_selections_ sample_menu |})
  ∧ (no_visible_destination sample_menu (ArrayElements (Some [99%N; 98%N]))
     = true
     ∧ UpdateFocus (Some [99%N; 98%N]) sample_menu =
         {| menu_def_ := menu_def_ sample_menu;
            button_list_ := button_list_ sample_menu;
            image_list_ := image_list_ sample_menu;
            current_focus_ := current_focus_ sample_menu;
            unhandled_selections_ :=
              unhandled_selections_ sample_menu
              ++ [MkMenuSelection ButtonId_InvalidInput kTouchController] |}).
Proof.
  destruct (UpdateFocus_first_visible sample_menu) as (Hfirst & Hnone & _).
  split.
  - split; [reflexivity|]. split; [reflexivity|].
    apply Hfirst; reflexivity.
  - split; [reflexivity|]. apply Hnone; reflexivity.
Defined.

Lemma AdvanceFrame_queue_fresh_witness :
  let g' := AdvanceFrame 16%Z [10%N; 11%N] (1920, 1080)%Z undrained_menu in
  length (filter (λ b, Is_true (IsTriggered b)) (button_list_ g')) ≤ 3
  ∧ (drain 3 g').1 =
      [MkMenuSelection 10%N kTouchController;
       MkMenuSelection ButtonId_InvalidInput kTouchController;
       MkMenuSelection ButtonId_Undefined kUndefinedController].
Proof.
  intros g'.
  assert (length (filter (λ b, Is_true (IsTriggered b)) (button_list_ g')) ≤ 3)
    as Hlen by (vm_compute; lia).
  split; [exact Hlen|].
  destruct (@AdvanceFrame_queue_fresh sample_platform sample_widget
              16%Z [10%N; 11%N] (1920, 1080)%Z undrained_menu 3)
    as [_ Hdrain].
  exact (Hdrain Hlen).
Defined.

Lemma GetRecentSelection_front_or_sentinel_witness :
  (unhandled_selections_ undrained_menu =
     MkMenuSelection 10%N 0%Z :: [MkMenuSelection 2%N 1%Z]
   ∧ (GetRecentSelection undrained_menu).1 = MkMenuSelection 10%N 0%Z
   ∧ unhandled_selections_ (GetRecentSelection undrained_menu).2
     = [MkMenuSelection 2%N 1%Z])
  ∧ (unhandled_selections_ sample_menu = []
     ∧ GetRecentSelection sample_menu =
         (MkMenuSelection ButtonId_Undefined kUndefinedController,
          sample_menu)).
Proof.
  destruct (GetRecentSelection_front_or_sentinel undrained_menu)
    as [Hfront _].
  destruct (GetRecentSelection_front_or_sentinel sample_menu)
    as [_ Hempty].
  split.
  - split; [reflexivity|].
    rewrite (Hfront (MkMenuSelection 10%N 0%Z) [MkMenuSelection 2%N 1%Z]
               eq_refl).
    split; reflexivity.
  - split; [reflexivity|]. apply Hempty. reflexivity.
Defined.

Lemma Setup_collection_sizes_witness :
  (0 < UiGroup.cannonical_window_height sample_menu_def)%Z
  ∧ ∃ g' trace,
      Setup (Some sample_menu_def) failing_matman undrained_menu
      = Some (g', trace)
      ∧ length (button_list_ g') = 2
      ∧ length (image_list_ g') = 1.
Proof.
  split; [reflexivity|].
  apply (Setup_collection_sizes sample_menu_def failing_matman undrained_menu).
  reflexivity.
Defined.

Lemma highlight_after_AdvanceFrame_and_Setup_witness :
  (0 < UiGroup.cannonical_window_height sample_menu_def)%Z
  ∧ ∃ g' trace,
      Setup (Some sample_menu_def) sample_matman empty_menu
      = Some (g', trace)
      ∧ Forall (λ b, TouchscreenButton.is_highlighted b = true)
          (button_list_ g').
Proof.
  split; [reflexivity|].
  apply (proj2 highlight_after_AdvanceFrame_and_Setup). reflexivity.
Defined.

(** C6 as stated fails right after [Setup]: the focus is on A, yet B's
    highlight flag is true as well. *)
Lemma highlight_after_Setup_counterexample :
  ∃ g' trace,
    Setup (Some sample_menu_def) sample_matman empty_menu = Some (g', trace)
    ∧ current_focus_ g' = 10%N
    ∧ ¬ highlight_tracks_focus g'.
Proof.
  eexists _, _. split; [reflexivity|]. split; [reflexivity|].
  intros Htracks. unfold highlight_tracks_focus in Htracks.
  cbv in Htracks.
  inversion Htracks as [|? ? _ Hrest].
  inversion Hrest as [|? ? [HB _] _].
  discriminate (HB eq_refl).
Qed.

Lemma HandleControllerInput_focus_missing_witness :
  focus_missing (SetFocus 99%N sample_menu)
  ∧ HandleControllerInput 255%Z 1%Z (SetFocus 99%N sample_menu)
    = Some (SetFocus 99%N sample_menu).
Proof.
  assert (focus_missing (SetFocus 99%N sample_menu)) as Hmissing
    by (apply FindButtonById_focus_missing; reflexivity).
  split; [exact Hmissing|].
  exact (HandleControllerInput_focus_missing _ 255%Z 1%Z Hmissing).
Defined.

(** C5 as stated fails when the focus is on a widget that exists and is
    invisible: the cancel signal is handled and queues an event. *)
Lemma HandleControllerInput_invisible_focus_counterexample :
  let g := set_button_visible 10%N false sample_menu in
  TouchscreenButton.is_visible <$> FindButtonById g (current_focus_ g)
  = Some false
  ∧ HandleControllerInput LogicalInputs_Cancel 1%Z g =
      Some (push (MkMenuSelection ButtonId_Cancel 1%Z) g)
  ∧ HandleControllerInput LogicalInputs_Cancel 1%Z g ≠ Some g.
Proof.
  intros g. split; [reflexivity|]. split; [reflexivity|].
  intros Hsame. apply (f_equal (fmap unhandled_selections_)) in Hsame.
  vm_compute in Hsame. discriminate Hsame.
Qed.

(** C4 on the concrete menu: the focus is on A, which is active, and B
    is visible and not active.  Up and select asserted together move the
    focus to B and queue B's identity for the controller: the activation
    flag tested is A's, the identity queued is B's. *)
Theorem HandleControllerInput_up_and_select :
  current_focus_ sample_menu = 10%N
  ∧ TouchscreenButton.is_active <$> FindButtonById sample_menu 10%N
    = Some true
  ∧ TouchscreenButton.is_active <$> FindButtonById sample_menu 11%N
    = Some false
  ∧ HandleControllerInput (Z.lor LogicalInputs_Up LogicalInputs_Select)
      1%Z sample_menu =
      Some (push (MkMenuSelection 11%N 1%Z) (SetFocus 11%N sample_menu)).
Proof. repeat split; reflexivity. Qed.

End Concrete.

(** ** Further properties of the menu *)

Section Coverage.
Context `{Widget}.

Implicit Types (g : GuiMenu) (b : TouchscreenButton.t) (id : ButtonId).

(** *** Lookups return the first match *)

Lemma find_button_first buttons id b :
  find_button buttons id = Some b ↔
  ∃ before after,
    buttons = before ++ b :: after
    ∧ TouchscreenButton.GetId b = id
    ∧ Forall (λ b', TouchscreenButton.GetId b' ≠ id) before.
Proof.
  induction buttons as [|b0 rest IH]; simpl.
  - split; [done|]. intros (before & after & Heq & _). by destruct before.
  - case_bool_decide as Hid.
    + split.
      * intros [= ->]. exists [], rest. by repeat split.
      * intros (before & after & Heq & Hb & Hbefore).
        destruct before as [|b1 before]; simpl in Heq.
        -- by injection Heq as ->.
        -- injection Heq as -> _. by apply Forall_cons_1 in Hbefore as [? _].
    + rewrite IH. split.
      * intros (before & after & -> & Hb & Hbefore).
        exists (b0 :: before), after. repeat split; [done|].
        by apply Forall_cons_2.
      * intros (before & after & Heq & Hb & Hbefore).
        destruct before as [|b1 before]; simpl in Heq.
        -- injection Heq as -> _. done.
        -- injection Heq as -> ->. apply Forall_cons_1 in Hbefore as [_ ?].
           by exists before, after.
Qed.

(** X1.  [FindButtonById] returns a widget exactly when that widget
    carries the identity and no widget before it in the collection
    does; it returns null exactly when no widget carries the identity. *)
Theorem FindButtonById_first_match g id :
  (∀ b,
     FindButtonById g id = Some b ↔
     ∃ before after,
       button_list_ g = before ++ b :: after
       ∧ TouchscreenButton.GetId b = id
       ∧ Forall (λ b', TouchscreenButton.GetId b' ≠ id) before)
  ∧ (FindButtonById g id = None ↔
     Forall (λ b', TouchscreenButton.GetId b' ≠ id) (button_list_ g)).
Proof.
  split.
  - intros b. apply find_button_first.
  - unfold FindButtonById. by rewrite find_button_None, Forall_forall.
Qed.

(** X2.  [FindImageById] returns an image exactly when that image
    carries the identity and no image before it in the collection does;
    it returns null exactly when no image carries the identity. *)
Theorem FindImageById_first_match g id :
  (∀ image,
     FindImageById g id = Some image ↔
     ∃ before after,
       image_list_ g = before ++ image :: after
       ∧ StaticImage.GetId image = id
       ∧ Forall (λ i, StaticImage.GetId i ≠ id) before)
  ∧ (FindImageById g id = None ↔
     Forall (λ i, StaticImage.GetId i ≠ id) (image_list_ g)).
Proof.
  unfold FindImageById. generalize (image_list_ g) as images.
  intros images. split.
  - intros image. induction images as [|i0 rest IH]; simpl.
    + split; [done|]. intros (before & after & Heq & _). by destruct before.
    + case_bool_decide as Hid.
      * split.
        -- intros [= ->]. exists [], rest. by repeat split.
        -- intros (before & after & Heq & Hi & Hbefore).
           destruct before as [|i1 before]; simpl in Heq.
           ++ by injection Heq as ->.
           ++ injection Heq as -> _.
              by apply Forall_cons_1 in Hbefore as [? _].
      * rewrite IH. split.
        -- intros (before & after & -> & Hi & Hbefore).
           exists (i0 :: before), after. repeat split; [done|].
           by apply Forall_cons_2.
        -- intros (before & after & Heq & Hi & Hbefore).
           destruct before as [|i1 before]; simpl in Heq.
           ++ injection Heq as -> _. done.
           ++ injection Heq as -> ->.
              apply Forall_cons_1 in Hbefore as [_ ?]. by exists before, after.
  - induction images as [|i0 rest IH]; simpl.
    + split; [|done]. intros _. apply Forall_nil_2.
    + case_bool_decide as Hid.
      * split; [done|]. intros Hall. by apply Forall_cons_1 in Hall as [? _].
      * rewrite IH. split.
        -- intros Hrest. by apply Forall_cons_2.
        -- intros Hall. by apply Forall_cons_1 in Hall as [_ ?].
Qed.

(** *** Draining *)

(** X3.  [n] successive calls of [GetRecentSelection] return the first
    [n] queued events in the order they were queued, then the
    (undefined, undefined) event for every call past the end of the
    queue; they leave the queue without its first [n] events and the
    rest of the menu as it was. *)
Theorem drain_take_drop (n : nat) g :
  drain n g =
    (take n (unhandled_selections_ g)
     ++ replicate (n - length (unhandled_selections_ g))
          (MkMenuSelection ButtonId_Undefined kUndefinedController),
     with_queue (drop n (unhandled_selections_ g)) g).
Proof.
  revert g. induction n as [|n IH]; intros g.
  - simpl. rewrite drop_0. destruct g; reflexivity.
  - simpl. unfold GetRecentSelection.
    destruct g as [def buttons images focus [|e queue]]; simpl.
    + rewrite IH. simpl. rewrite take_nil, drop_nil, Nat.sub_0_r. reflexivity.
    + rewrite IH. reflexivity.
Qed.

(** *** What a frame keeps *)

(** X4.  [AdvanceFrame] leaves the focus, the images and the menu
    definition as they were and keeps the number of widgets; the queue
    it leaves holds at most one event per widget. *)
Theorem AdvanceFrame_keeps delta_time input window_size g :
  let g' := AdvanceFrame delta_time input window_size g in
  current_focus_ g' = current_focus_ g
  ∧ image_list_ g' = image_list_ g
  ∧ menu_def_ g' = menu_def_ g
  ∧ length (button_list_ g') = length (button_list_ g)
  ∧ length (unhandled_selections_ g') ≤ length (button_list_ g).
Proof.
  simpl. unfold AdvanceFrame. simpl. rewrite AdvanceFrame_buttons_spec. simpl.
  repeat split; [by rewrite length_fmap|].
  generalize (button_list_ g) as buttons. intros buttons.
  induction buttons as [|b rest IH]; [done|].
  rewrite fmap_cons, bind_cons, length_app. simpl.
  unfold trigger_events at 1. destruct (IsTriggered _); simpl; lia.
Qed.

(** *** What controller input keeps *)

Lemma navigated_refl g : navigated 0 g g.
Proof.
  repeat split; [|by left]. exists []. by rewrite app_nil_r.
Qed.

Lemma navigated_weaken (n : nat) g g' : navigated n g g' → navigated (S n) g g'.
Proof.
  intros (Hdef & Hbuttons & Himages & (new & Hqueue & Hlen) & Hfocus).
  repeat split; [done.. | | done]. exists new. split; [done | lia].
Qed.

Lemma navigated_push (n : nat) g g' (e : MenuSelection) :
  navigated n g g' → navigated (S n) g (push e g').
Proof.
  intros (Hdef & Hbuttons & Himages & (new & Hqueue & Hlen) & Hfocus).
  repeat split; [done.. | | done]. exists (new ++ [e]). simpl. split.
  - by rewrite Hqueue, app_assoc.
  - rewrite length_app. simpl. lia.
Qed.

Lemma navigated_UpdateFocus (n : nat) g g' (destination_list : option (list N)) :
  navigated n g g' → navigated (S n) g (UpdateFocus destination_list g').
Proof.
  intros Hnav. unfold UpdateFocus.
  destruct (destination_list ≫= UpdateFocus_scan g') as [d|] eqn:Hscan;
    [|by apply navigated_push].
  destruct Hnav as (Hdef & Hbuttons & Himages & (new & Hqueue & Hlen) & _).
  repeat split; [done.. | |].
  - exists new. split; [done | lia].
  - right. destruct destination_list as [destinations|]; [|done].
    simpl in Hscan. apply UpdateFocus_scan_Some in Hscan as [_ Hvisible].
    unfold visible_destination, FindButtonById in Hvisible.
    rewrite Hbuttons in Hvisible.
    destruct (find_button (button_list_ g) d) as [b|] eqn:Hfind; [|done].
    apply find_button_Some in Hfind as [Hin Hid]. by exists b.
Qed.

Lemma navigated_direction (n : nat) g g' g'' (signal : bool)
    (current_def : option ButtonDef.t)
    (nav : ButtonDef.t → option (list N)) :
  navigated n g g' →
  (if signal then d ← current_def; Some (UpdateFocus (nav d) g')
   else Some g') = Some g'' →
  navigated (S n) g g''.
Proof.
  intros Hnav. destruct signal.
  - destruct current_def as [d|]; simpl; [|done].
    intros [= <-]. by apply navigated_UpdateFocus.
  - intros [= <-]. by apply navigated_weaken.
Qed.

Lemma HandleControllerInput_navigated g g'
    (logical_input : Z) (controller : ControllerId) :
  HandleControllerInput logical_input controller g = Some g' →
  navigated 6 g g'.
Proof.
  unfold HandleControllerInput.
  destruct (FindButtonById g (current_focus_ g)) as [b|].
  2: { intros [= <-]. do 6 apply navigated_weaken. apply navigated_refl. }
  destruct (if asserted logical_input LogicalInputs_Up then _ else _)
    as [g1|] eqn:Hup; simpl; [|done].
  apply (navigated_direction 0 g) in Hup; [|apply navigated_refl].
  destruct (if asserted logical_input LogicalInputs_Down then _ else _)
    as [g2|] eqn:Hdown; simpl; [|done].
  apply (navigated_direction 1 g) in Hdown; [|done].
  destruct (if asserted logical_input LogicalInputs_Left then _ else _)
    as [g3|] eqn:Hleft; simpl; [|done].
  apply (navigated_direction 2 g) in Hleft; [|done].
  destruct (if asserted logical_input LogicalInputs_Right then _ else _)
    as [g4|] eqn:Hright; simpl; [|done].
  apply (navigated_direction 3 g) in Hright; [|done].
  intros [= <-].
  destruct (asserted logical_input LogicalInputs_Select),
    (asserted logical_input LogicalInputs_Cancel);
    do 2 first [apply navigated_push | apply navigated_weaken]; exact Hright.
Qed.

(** X5.  Whenever [HandleControllerInput] returns, the widgets, the
    images and the menu definition are as they were, and the queue is
    the queue it found followed by at most six new events: nothing
    queued earlier is removed or reordered. *)
Theorem HandleControllerInput_keeps g g'
    (logical_input : Z) (controller : ControllerId) :
  HandleControllerInput logical_input controller g = Some g' →
  button_list_ g' = button_list_ g
  ∧ image_list_ g' = image_list_ g
  ∧ menu_def_ g' = menu_def_ g
  ∧ ∃ new, unhandled_selections_ g' = unhandled_selections_ g ++ new
           ∧ length new ≤ 6.
Proof.
  intros Hresult. apply HandleControllerInput_navigated in Hresult.
  destruct Hresult as (Hdef & Hbuttons & Himages & Hqueue & _). done.
Qed.

(** X6.  Whenever [HandleControllerInput] returns, the focus is the one
    it found or the identity of a widget of the collection that is
    visible, whatever combination of signals was asserted. *)
Theorem HandleControllerInput_focus_visible g g'
    (logical_input : Z) (controller : ControllerId) :
  HandleControllerInput logical_input controller g = Some g' →
  current_focus_ g' = current_focus_ g
  ∨ ∃ b, b ∈ button_list_ g
         ∧ TouchscreenButton.GetId b = current_focus_ g'
         ∧ TouchscreenButton.is_visible b = true.
Proof.
  intros Hresult. apply HandleControllerInput_navigated in Hresult.
  by destruct Hresult as (_ & _ & _ & _ & Hfocus).
Qed.

(** Controller input is handled to the end when every widget is bound
    to a definition. *)
Lemma HandleControllerInput_defined g
    (logical_input : Z) (controller : ControllerId) :
  Forall (λ b, is_Some (TouchscreenButton.button_def b)) (button_list_ g) →
  is_Some (HandleControllerInput logical_input controller g).
Proof.
  intros Hdefs. unfold HandleControllerInput.
  destruct (FindButtonById g (current_focus_ g)) as [b|] eqn:Hfocus; [|done].
  apply find_button_Some in Hfocus as [Hin _].
  rewrite Forall_forall in Hdefs. destruct (Hdefs b Hin) as [d ->].
  destruct (asserted logical_input LogicalInputs_Up),
    (asserted logical_input LogicalInputs_Down),
    (asserted logical_input LogicalInputs_Left),
    (asserted logical_input LogicalInputs_Right); simpl; done.
Qed.

(** X7.  On the menu that [Setup] builds from a definition, every
    controller input is handled to the end: the definition of the
    focused widget is never null when a direction is looked up. *)
Theorem HandleControllerInput_after_Setup def matman g :
  (0 < UiGroup.cannonical_window_height def)%Z →
  ∃ g' trace,
    Setup (Some def) matman g = Some (g', trace)
    ∧ ∀ (logical_input : Z) (controller : ControllerId),
        is_Some (HandleControllerInput logical_input controller g').
Proof.
  intros Hheight.
  destruct (Setup_button_list def matman g Hheight)
    as (g' & trace & Hsetup & Hbuttons & _).
  exists g', trace. split; [done|]. intros logical_input controller.
  apply HandleControllerInput_defined. rewrite Hbuttons.
  apply Forall_fmap, Forall_forall. intros button _. by eexists.
Qed.

(** *** What setup does, slot by slot *)

Lemma Traced_bind_fst {A B} (m : Traced A) (f : A → Traced B) :
  (m ≫= f).1 = (f m.1).1.
Proof. done. Qed.

Lemma Traced_bind_snd {A B} (m : Traced A) (f : A → Traced B) :
  (m ≫= f).2 = m.2 ++ (f m.1).2.
Proof. done. Qed.

Lemma find_material_run matman (name : string) :
  find_material matman name = (FindMaterial matman name, [CallFindMaterial name]).
Proof. done. Qed.

Lemma find_shader_run matman (name : string) :
  find_shader matman name = (FindShader matman name, [CallFindShader name]).
Proof. done. Qed.

Lemma Setup_texture_normal_effects matman (j : nat)
    (textures : list ButtonTexture.t) b :
  (Setup_texture_normal matman j textures b).2 =
    (λ texture, CallFindMaterial (TextureName texture)) <$> textures.
Proof.
  revert j b. induction textures as [|texture rest IH]; intros j b; [done|].
  simpl. by rewrite IH.
Qed.

Lemma Setup_button_effects matman menu_def button :
  (Setup_button matman menu_def button).2 = button_effects matman menu_def button.
Proof.
  unfold Setup_button, button_effects, button_shader_name,
    button_inactive_shader_name.
  rewrite Traced_bind_snd, Setup_texture_normal_effects. f_equal.
  rewrite Traced_bind_snd.
  destruct (ButtonDef.texture_pressed button) as [pressed|]; simpl;
    destruct (FindShader matman _) as [shader|]; done.
Qed.

Lemma Setup_buttons_effects matman menu_def (i : nat)
    (buttons : list ButtonDef.t) (button_list : list TouchscreenButton.t) :
  (Setup_buttons matman menu_def i buttons button_list).2 =
    buttons ≫= button_effects matman menu_def.
Proof.
  revert i button_list.
  induction buttons as [|button rest IH]; intros i button_list; [done|].
  rewrite bind_cons. cbn [Setup_buttons].
  by rewrite Traced_bind_snd, IH, Setup_button_effects.
Qed.

Lemma Setup_image_materials_spec matman (j : nat)
    (textures : list ButtonTexture.t) (materials : list (option Material)) :
  length materials = j + length textures →
  Setup_image_materials matman j textures materials =
    (take j materials
     ++ ((λ texture, FindMaterial matman (TextureName texture)) <$> textures),
     textures ≫= image_texture_effects matman).
Proof.
  revert j materials.
  induction textures as [|texture rest IH]; intros j materials Hlen.
  - simpl in *. rewrite app_nil_r, take_ge by lia. done.
  - simpl in Hlen. rewrite bind_cons. cbn [Setup_image_materials].
    apply injective_projections.
    + rewrite !Traced_bind_fst, IH by (rewrite length_insert; lia).
      cbn [fst]. rewrite fmap_cons.
      rewrite (take_S_r _ _ (FindMaterial matman (TextureName texture)))
        by (apply list_lookup_insert_eq; lia).
      rewrite take_insert_ge by lia. by rewrite <- app_assoc.
    + rewrite !Traced_bind_snd, IH by (rewrite length_insert; lia).
      rewrite find_material_run. cbn [fst snd].
      unfold image_texture_effects at 2.
      by destruct (FindMaterial matman (TextureName texture)).
Qed.

Lemma alter_Initialize image_def materials shader (h : Z) (i : nat)
    (image_list : list StaticImage.t) :
  alter (StaticImage.Initialize image_def materials shader h) i image_list =
    <[i:=StaticImage.Initialize image_def materials shader h StaticImage.new]>
      image_list.
Proof.
  revert i. induction image_list as [|image rest IH]; intros [|i]; simpl;
    [done.. |]. f_equal. apply IH.
Qed.

Lemma Setup_images_spec matman menu_def (i : nat)
    (images : list StaticImageDef.t) (image_list : list StaticImage.t) :
  length image_list = i + length images →
  Setup_images matman menu_def i images image_list =
    (take i image_list ++ (built_image matman menu_def <$> images),
     images ≫= image_effects matman menu_def).
Proof.
  revert i image_list.
  induction images as [|image_def rest IH]; intros i image_list Hlen.
  - simpl in *. rewrite app_nil_r, take_ge by lia. done.
  - simpl in Hlen. rewrite bind_cons. cbn [Setup_images].
    fold (image_shader_name menu_def image_def).
    rewrite Setup_image_materials_spec by (rewrite length_replicate; lia).
    apply injective_projections.
    + rewrite !Traced_bind_fst, find_shader_run. cbn [fst].
      rewrite alter_Initialize.
      rewrite IH by (rewrite length_insert; lia). cbn [fst].
      rewrite fmap_cons.
      rewrite (take_S_r _ _ (built_image matman menu_def image_def))
        by (apply list_lookup_insert_eq; lia).
      rewrite take_insert_ge by lia. by rewrite <- app_assoc.
    + rewrite !Traced_bind_snd, find_shader_run. cbn [fst snd].
      rewrite alter_Initialize.
      rewrite IH by (rewrite length_insert; lia). cbn [snd].
      unfold image_effects at 2.
      destruct (FindShader matman (image_shader_name menu_def image_def));
        simpl; rewrite <- !app_assoc; done.
Qed.

(** The menu and the effects of [Setup] on a definition. *)
Lemma Setup_spec def matman g :
  (0 < UiGroup.cannonical_window_height def)%Z →
  Setup (Some def) matman g =
    Some
      ({| menu_def_ := Some def;
          button_list_ :=
            (λ button, (Setup_button matman def button).1)
            <$> ArrayElements (UiGroup.button_list def);
          image_list_ :=
            built_image matman def
            <$> ArrayElements (UiGroup.static_image_list def);
          current_focus_ := UiGroup.starting_selection def;
          unhandled_selections_ := [] |},
       (ArrayElements (UiGroup.button_list def) ≫= button_effects matman def)
       ++ (ArrayElements (UiGroup.static_image_list def)
           ≫= image_effects matman def)).
Proof.
  intros Hheight. unfold Setup. rewrite decide_True by done. f_equal.
  apply injective_projections.
  - rewrite !Traced_bind_fst. cbn [fst mret Traced_ret].
    rewrite Setup_images_spec, Setup_buttons_spec.
    + done.
    + rewrite length_resize. by destruct (UiGroup.button_list def).
    + rewrite length_resize. by destruct (UiGroup.static_image_list def).
  - rewrite !Traced_bind_snd. cbn [snd mret Traced_ret].
    rewrite Setup_images_spec, Setup_buttons_effects.
    + cbn [snd]. by rewrite app_nil_r.
    + rewrite length_resize. by destruct (UiGroup.static_image_list def).
Qed.

(** X8.  [Setup] on a definition rebuilds the menu from scratch: the
    menu it returns and the effects it performs are the same whatever
    the menu held before (widgets, images, focus, queue). *)
Theorem Setup_from_scratch def matman (g1 g2 : GuiMenu) :
  Setup (Some def) matman g1 = Setup (Some def) matman g2.
Proof.
  destruct (decide (0 < UiGroup.cannonical_window_height def)%Z) as [Hpos|Hneg].
  - by rewrite !Setup_spec.
  - unfold Setup. by rewrite !decide_False.
Qed.

(** X9.  After [Setup] on a definition, [FindButtonById] returns null
    exactly for the identities no button declares; when the declared
    identities are pairwise distinct, it returns for each declared button
    a widget bound to that button's definition, active exactly when the
    button's [starts_active] is not zero. *)
Theorem Setup_then_FindButtonById def matman g :
  (0 < UiGroup.cannonical_window_height def)%Z →
  ∃ g' trace,
    Setup (Some def) matman g = Some (g', trace)
    ∧ (∀ id,
         FindButtonById g' id = None ↔
         id ∉ ButtonDef.ID <$> ArrayElements (UiGroup.button_list def))
    ∧ (NoDup (ButtonDef.ID <$> ArrayElements (UiGroup.button_list def)) →
       ∀ button,
         button ∈ ArrayElements (UiGroup.button_list def) →
         ∃ b,
           FindButtonById g' (ButtonDef.ID button) = Some b
           ∧ TouchscreenButton.button_def b = Some button
           ∧ TouchscreenButton.is_active b
             = negb (ButtonDef.starts_active button =? 0)%Z).
Proof.
  intros Hheight. eexists _, _. split; [by apply Setup_spec|].
  unfold FindButtonById. cbn [button_list_].
  set (buttons := ArrayElements (UiGroup.button_list def)).
  set (build := λ button, (Setup_button matman def button).1).
  assert (TouchscreenButton.GetId <$> (build <$> buttons)
          = ButtonDef.ID <$> buttons) as Hids.
  { rewrite <- list_fmap_compose. by apply list_fmap_ext. }
  split.
  - intros id. rewrite find_button_None, <- Hids. split.
    + intros Hall Hin. apply list_elem_of_fmap in Hin as (b & -> & Hb).
      by apply (Hall b).
    + intros Hnotin b Hb <-. apply Hnotin. by apply list_elem_of_fmap_2.
  - intros Hnodup button Hbutton. exists (build button).
    split; [|done].
    change (ButtonDef.ID button) with (TouchscreenButton.GetId (build button)).
    apply find_button_NoDup; [by rewrite Hids|].
    by apply list_elem_of_fmap_2.
Qed.

(** X10.  When the material manager finds every material and every
    shader, [Setup] on a definition writes no log line: its effects are
    lookups only. *)
Theorem Setup_silent_when_all_found def matman g :
  (∀ name, is_Some (FindMaterial matman name)) →
  (∀ name, is_Some (FindShader matman name)) →
  (0 < UiGroup.cannonical_window_height def)%Z →
  ∃ g' trace,
    Setup (Some def) matman g = Some (g', trace)
    ∧ Forall (λ e, is_log e = false) trace.
Proof.
  intros Hmaterials Hshaders Hheight.
  eexists _, _. split; [by apply Setup_spec|].
  apply Forall_app. split; apply Forall_forall; intros e He;
    apply list_elem_of_bind in He as (d & He & _).
  - unfold button_effects in He.
    destruct (Hshaders (button_shader_name def d)) as [shader Hshader].
    rewrite Hshader, app_nil_r in He.
    repeat (apply elem_of_app in He as [He|He]).
    + by apply list_elem_of_fmap in He as (texture & -> & _).
    + destruct (ButtonDef.texture_pressed d); [|by apply elem_of_nil in He].
      by apply list_elem_of_singleton in He as ->.
    + apply elem_of_cons in He as [->|He]; [done|].
      by apply list_elem_of_singleton in He as ->.
  - unfold image_effects in He.
    destruct (Hshaders (image_shader_name def d)) as [shader Hshader].
    rewrite Hshader in He. apply elem_of_app in He as [He|He].
    + apply list_elem_of_bind in He as (texture & He & _).
      unfold image_texture_effects in He.
      destruct (Hmaterials (TextureName texture)) as [material Hmaterial].
      rewrite Hmaterial in He. by apply list_elem_of_singleton in He as ->.
    + by apply list_elem_of_singleton in He as ->.
Qed.

(** X11.  [Setup] reports every missing asset of a static image: a
    texture whose material is not found leaves the error line naming
    the material, and an image whose shader is not found leaves the
    error line naming the shader. *)
Theorem Setup_reports_missing_image_assets def matman g image_def :
  (0 < UiGroup.cannonical_window_height def)%Z →
  image_def ∈ ArrayElements (UiGroup.static_image_list def) →
  ∃ g' trace,
    Setup (Some def) matman g = Some (g', trace)
    ∧ (∀ texture,
         texture ∈ StaticImageDef.texture image_def →
         FindMaterial matman (TextureName texture) = None →
         SDL_LogError "Static image '%s' not found" (TextureName texture)
         ∈ trace)
    ∧ (FindShader matman (image_shader_name def image_def) = None →
       SDL_LogError "Static image missing shader '%s'"
         (image_shader_name def image_def)
       ∈ trace).
Proof.
  intros Hheight Himage. eexists _, _. split; [by apply Setup_spec|].
  split.
  - intros texture Htexture Hmissing.
    apply elem_of_app. right. apply list_elem_of_bind.
    exists image_def. split; [|done]. unfold image_effects.
    apply elem_of_app. left. apply list_elem_of_bind.
    exists texture. split; [|done]. unfold image_texture_effects.
    rewrite Hmissing. right. left.
  - intros Hmissing.
    apply elem_of_app. right. apply list_elem_of_bind.
    exists image_def. split; [|done]. unfold image_effects.
    apply elem_of_app. right. rewrite Hmissing. right. left.
Qed.

(** *** Preloading covers setup *)

Lemma LoadAssets_textures_spec (textures : list ButtonTexture.t) :
  LoadAssets_textures textures =
    (λ texture, CallLoadMaterial (TextureName texture)) <$> textures.
Proof. induction textures as [|texture rest IH]; simpl; by f_equal. Qed.

Lemma LoadAssets_buttons_spec (buttons : list ButtonDef.t) :
  LoadAssets_buttons buttons = buttons ≫= LoadAssets_button.
Proof.
  induction buttons as [|button rest IH]; [done|].
  rewrite bind_cons. simpl. by rewrite IH.
Qed.

Lemma LoadAssets_images_spec (images : list StaticImageDef.t) :
  LoadAssets_images images = images ≫= LoadAssets_image.
Proof.
  induction images as [|image_def rest IH]; [done|].
  rewrite bind_cons. simpl. by rewrite IH.
Qed.

Lemma LoadAssets_button_material menu_def button (name : string) :
  button ∈ ArrayElements (UiGroup.button_list menu_def) →
  CallLoadMaterial name ∈ LoadAssets_button button →
  CallLoadMaterial name ∈ LoadAssets menu_def.
Proof.
  intros Hbutton Hcall. unfold LoadAssets.
  apply elem_of_app. right. apply elem_of_app. left.
  rewrite LoadAssets_buttons_spec. apply list_elem_of_bind. eauto.
Qed.

Lemma LoadAssets_button_shader menu_def button (name : string) :
  button ∈ ArrayElements (UiGroup.button_list menu_def) →
  CallLoadShader name ∈ LoadAssets_button button →
  CallLoadShader name ∈ LoadAssets menu_def.
Proof.
  intros Hbutton Hcall. unfold LoadAssets.
  apply elem_of_app. right. apply elem_of_app. left.
  rewrite LoadAssets_buttons_spec. apply list_elem_of_bind. eauto.
Qed.

Lemma LoadAssets_image_call menu_def image_def (call : LoadCall) :
  image_def ∈ ArrayElements (UiGroup.static_image_list menu_def) →
  call ∈ LoadAssets_image image_def →
  call ∈ LoadAssets menu_def.
Proof.
  intros Himage Hcall. unfold LoadAssets.
  apply elem_of_app. right. apply elem_of_app. right.
  rewrite LoadAssets_images_spec. apply list_elem_of_bind. eauto.
Qed.

Lemma LoadAssets_default_shader menu_def :
  CallLoadShader (UiGroup.default_shader menu_def) ∈ LoadAssets menu_def.
Proof. unfold LoadAssets. apply elem_of_app. left. left. Qed.

Lemma LoadAssets_default_inactive_shader menu_def :
  CallLoadShader (UiGroup.default_inactive_shader menu_def)
  ∈ LoadAssets menu_def.
Proof. unfold LoadAssets. apply elem_of_app. left. right. left. Qed.

Lemma button_effects_loaded matman menu_def button :
  button ∈ ArrayElements (UiGroup.button_list menu_def) →
  (∀ name, CallFindMaterial name ∈ button_effects matman menu_def button →
           CallLoadMaterial name ∈ LoadAssets menu_def)
  ∧ (∀ name, CallFindShader name ∈ button_effects matman menu_def button →
             CallLoadShader name ∈ LoadAssets menu_def).
Proof.
  intros Hbutton. unfold button_effects. split; intros name He.
  - apply (LoadAssets_button_material _ button); [done|].
    unfold LoadAssets_button. rewrite LoadAssets_textures_spec.
    apply elem_of_app in He as [He|He].
    { apply elem_of_app. left.
      apply list_elem_of_fmap in He as (texture & [= ->] & Htexture).
      by apply (list_elem_of_fmap_2 (λ t, CallLoadMaterial (TextureName t))). }
    apply elem_of_app in He as [He|He].
    { apply elem_of_app. right. apply elem_of_app. left.
      destruct (ButtonDef.texture_pressed button); [|by apply elem_of_nil in He].
      apply list_elem_of_singleton in He as [= ->]. left. }
    apply elem_of_app in He as [He|He].
    { apply elem_of_cons in He as [[=]|He].
      by apply list_elem_of_singleton in He. }
    destruct (FindShader matman _); [by apply elem_of_nil in He|].
    by apply list_elem_of_singleton in He.
  - apply elem_of_app in He as [He|He].
    { by apply list_elem_of_fmap in He as (texture & [=] & _). }
    apply elem_of_app in He as [He|He].
    { destruct (ButtonDef.texture_pressed button); [|by apply elem_of_nil in He].
      by apply list_elem_of_singleton in He. }
    apply elem_of_app in He as [He|He].
    2: { destruct (FindShader matman _); [by apply elem_of_nil in He|].
         by apply list_elem_of_singleton in He. }
    apply elem_of_cons in He as [[= ->]|He].
    + unfold button_shader_name.
      destruct (ButtonDef.shader button) as [shader|] eqn:Hshader;
        [|apply LoadAssets_default_shader].
      apply (LoadAssets_button_shader _ button); [done|].
      unfold LoadAssets_button. rewrite Hshader.
      apply elem_of_app. right. apply elem_of_app. right.
      apply elem_of_app. left. left.
    + apply list_elem_of_singleton in He as [= ->].
      unfold button_inactive_shader_name.
      destruct (ButtonDef.inactive_shader button) as [shader|] eqn:Hshader;
        [|apply LoadAssets_default_inactive_shader].
      apply (LoadAssets_button_shader _ button); [done|].
      unfold LoadAssets_button. rewrite Hshader.
      apply elem_of_app. right. apply elem_of_app. right.
      apply elem_of_app. right. left.
Qed.

Lemma image_effects_loaded matman menu_def image_def :
  image_def ∈ ArrayElements (UiGroup.static_image_list menu_def) →
  (∀ name, CallFindMaterial name ∈ image_effects matman menu_def image_def →
           CallLoadMaterial name ∈ LoadAssets menu_def)
  ∧ (∀ name, CallFindShader name ∈ image_effects matman menu_def image_def →
             CallLoadShader name ∈ LoadAssets menu_def).
Proof.
  intros Himage. unfold image_effects. split; intros name He.
  - apply (LoadAssets_image_call _ image_def); [done|].
    unfold LoadAssets_image. rewrite LoadAssets_textures_spec.
    apply elem_of_app in He as [He|He].
    + apply elem_of_app. left.
      apply list_elem_of_bind in He as (texture & He & Htexture).
      unfold image_texture_effects in He.
      apply elem_of_cons in He as [[= ->]|He].
      * by apply (list_elem_of_fmap_2 (λ t, CallLoadMaterial (TextureName t))).
      * destruct (FindMaterial matman _); [by apply elem_of_nil in He|].
        by apply list_elem_of_singleton in He.
    + apply elem_of_cons in He as [[=]|He].
      destruct (FindShader matman _); [by apply elem_of_nil in He|].
      by apply list_elem_of_singleton in He.
  - apply elem_of_app in He as [He|He].
    + apply list_elem_of_bind in He as (texture & He & _).
      unfold image_texture_effects in He.
      apply elem_of_cons in He as [[=]|He].
      destruct (FindMaterial matman _); [by apply elem_of_nil in He|].
      by apply list_elem_of_singleton in He.
    + apply elem_of_cons in He as [[= ->]|He].
      * unfold image_shader_name.
        destruct (StaticImageDef.shader image_def) as [shader|] eqn:Hshader;
          [|apply LoadAssets_default_shader].
        apply (LoadAssets_image_call _ image_def); [done|].
        unfold LoadAssets_image. rewrite Hshader.
        apply elem_of_app. right. left.
      * destruct (FindShader matman _); [by apply elem_of_nil in He|].
        by apply list_elem_of_singleton in He.
Qed.

(** X12.  [LoadAssets] preloads everything [Setup] looks up: for the
    same definition (and the same kind of device), every material name
    [Setup] passes to [FindMaterial] was passed to [LoadMaterial], and
    every shader name it passes to [FindShader] was passed to
    [LoadShader]. *)
Theorem LoadAssets_covers_Setup def matman g g' (trace : list Effect) :
  Setup (Some def) matman g = Some (g', trace) →
  (∀ name, CallFindMaterial name ∈ trace →
           CallLoadMaterial name ∈ LoadAssets def)
  ∧ (∀ name, CallFindShader name ∈ trace →
             CallLoadShader name ∈ LoadAssets def).
Proof.
  intros Hsetup.
  destruct (decide (0 < UiGroup.cannonical_window_height def)%Z) as [Hpos|Hneg].
  2: { unfold Setup in Hsetup. by rewrite decide_False in Hsetup. }
  rewrite Setup_spec in Hsetup by done. injection Hsetup as _ <-.
  split; intros name He; apply elem_of_app in He as [He|He];
    apply list_elem_of_bind in He as (d & He & Hd).
  - by apply (button_effects_loaded matman def d Hd).
  - by apply (image_effects_loaded matman def d Hd).
  - by apply (button_effects_loaded matman def d Hd).
  - by apply (image_effects_loaded matman def d Hd).
Qed.

(** *** Rendering *)

Lemma Render_images_partition (images : list StaticImage.t)
    (before after : list DrawCall) :
  Render_images false images = Some before →
  Render_images true images = Some after →
  before ++ after ≡ₚ RenderImage <$> images.
Proof.
  revert before after.
  induction images as [|image rest IH]; intros before after; simpl.
  - by intros [= <-] [= <-].
  - destruct (StaticImage.image_def image) as [d|]; simpl; [|done].
    destruct (Render_images false rest) as [before'|]; simpl; [|done].
    destruct (Render_images true rest) as [after'|]; simpl; [|done].
    specialize (IH before' after' eq_refl eq_refl).
    destruct (StaticImageDef.render_after_buttons d); simpl;
      intros [= <-] [= <-].
    + rewrite <- Permutation_middle. by constructor.
    + simpl. by constructor.
Qed.

Lemma Render_images_defined (after : bool) (images : list StaticImage.t) :
  Forall (λ image, is_Some (StaticImage.image_def image)) images →
  is_Some (Render_images after images).
Proof.
  induction 1 as [|image rest [d Hd] _ [calls Hcalls]]; simpl; [done|].
  rewrite Hd, Hcalls. simpl. done.
Qed.

Lemma Render_permutation g (calls : list DrawCall) :
  Render g = Some calls →
  calls ≡ₚ (RenderImage <$> image_list_ g) ++ (RenderButton <$> button_list_ g).
Proof.
  unfold Render. intros Hrender.
  destruct (Render_images false (image_list_ g)) as [before|] eqn:Hbefore;
    simpl in Hrender; [|done].
  destruct (Render_images true (image_list_ g)) as [after|] eqn:Hafter;
    simpl in Hrender; [|done].
  injection Hrender as <-.
  rewrite <- (Render_images_partition _ _ _ Hbefore Hafter).
  rewrite <- !app_assoc. apply Permutation_app_head, Permutation_app_comm.
Qed.

Lemma Render_call_count g (calls : list DrawCall) :
  Render g = Some calls →
  length calls = length (image_list_ g) + length (button_list_ g).
Proof.
  intros Hrender. apply Render_permutation in Hrender.
  by rewrite Hrender, length_app, !length_fmap.
Qed.

(** X13.  Whenever [Render] returns, what it handed to the renderer is
    a rearrangement of all the images and all the widgets of the menu:
    each image and each widget is drawn exactly once, whatever the
    [render_after_buttons] flags are. *)
Theorem Render_draws_each_once g (calls : list DrawCall) :
  Render g = Some calls →
  calls ≡ₚ (RenderImage <$> image_list_ g) ++ (RenderButton <$> button_list_ g)
  ∧ length calls = length (image_list_ g) + length (button_list_ g).
Proof.
  intros Hrender. split.
  - by apply Render_permutation.
  - by apply Render_call_count.
Qed.

(** X14.  On the menu that [Setup] builds from a definition, [Render]
    returns: no image is left without a definition, and one draw call
    is made per declared button and per declared image. *)
Theorem Render_after_Setup def matman g :
  (0 < UiGroup.cannonical_window_height def)%Z →
  ∃ g' trace calls,
    Setup (Some def) matman g = Some (g', trace)
    ∧ Render g' = Some calls
    ∧ length calls
      = ArrayLength (UiGroup.static_image_list def)
        + ArrayLength (UiGroup.button_list def).
Proof.
  intros Hheight.
  pose proof (Setup_spec def matman g Hheight) as Hsetup.
  match type of Hsetup with _ = Some (?m, ?t) => set (g' := m) in * end.
  assert (∃ calls, Render g' = Some calls) as [calls Hcalls].
  { unfold Render.
    assert (Forall (λ image, is_Some (StaticImage.image_def image))
              (image_list_ g')) as Hdefs.
    { subst g'. cbn [image_list_]. apply Forall_fmap, Forall_forall.
      intros image_def _. by eexists. }
    destruct (Render_images_defined false _ Hdefs) as [before ->].
    destruct (Render_images_defined true _ Hdefs) as [after ->].
    simpl. by eexists. }
  eexists g', _, calls. split; [exact Hsetup|]. split; [done|].
  rewrite (Render_call_count g' calls Hcalls). subst g'. cbn [image_list_ button_list_].
  rewrite !length_fmap.
  by destruct (UiGroup.static_image_list def), (UiGroup.button_list def).
Qed.

(** *** Signals at the edges *)

Lemma asserted_no_signal (mask : Z) : asserted 0 mask = false.
Proof. unfold asserted. by rewrite Z.land_0_l. Qed.

(** X15.  With no signal asserted (an input mask of zero),
    [HandleControllerInput] returns and leaves the menu exactly as it
    was, whether or not the focus names a widget. *)
Theorem HandleControllerInput_no_signal g (controller : ControllerId) :
  HandleControllerInput 0 controller g = Some g.
Proof.
  unfold HandleControllerInput. rewrite !asserted_no_signal.
  by destruct (FindButtonById g (current_focus_ g)).
Qed.

(** X16.  When the focus names a widget and the cancel signal is
    asserted, the last event in the queue after [HandleControllerInput]
    is the cancel identity tagged with the controller, whatever other
    signals were asserted with it. *)
Theorem HandleControllerInput_cancel_last g g'
    (logical_input : Z) (controller : ControllerId) :
  is_Some (FindButtonById g (current_focus_ g)) →
  asserted logical_input LogicalInputs_Cancel = true →
  HandleControllerInput logical_input controller g = Some g' →
  last (unhandled_selections_ g')
  = Some (MkMenuSelection ButtonId_Cancel controller).
Proof.
  intros [b Hfocus] Hcancel. unfold HandleControllerInput.
  rewrite Hfocus, Hcancel.
  destruct (if asserted logical_input LogicalInputs_Up then _ else _)
    as [g1|]; simpl; [|done].
  destruct (if asserted logical_input LogicalInputs_Down then _ else _)
    as [g2|]; simpl; [|done].
  destruct (if asserted logical_input LogicalInputs_Left then _ else _)
    as [g3|]; simpl; [|done].
  destruct (if asserted logical_input LogicalInputs_Right then _ else _)
    as [g4|]; simpl; [|done].
  intros [= <-]. simpl. apply last_snoc.
Qed.

End Coverage.

(** ** The further properties on the concrete menu *)

Section CoverageConcrete.
#[local] Existing Instance sample_platform.
#[local] Existing Instance sample_widget.

Lemma HandleControllerInput_keeps_witness :
  ∃ g',
    HandleControllerInput 193%Z 1%Z undrained_menu = Some g'
    ∧ button_list_ g' = button_list_ undrained_menu
    ∧ image_list_ g' = image_list_ undrained_menu
    ∧ menu_def_ g' = menu_def_ undrained_menu
    ∧ ∃ new, unhandled_selections_ g'
             = unhandled_selections_ undrained_menu ++ new
             ∧ length new ≤ 6.
Proof.
  eexists. split; [reflexivity|].
  apply (HandleControllerInput_keeps undrained_menu _ 193%Z 1%Z).
  reflexivity.
Defined.

Lemma HandleControllerInput_focus_visible_witness :
  ∃ g',
    HandleControllerInput 193%Z 1%Z undrained_menu = Some g'
    ∧ (current_focus_ g' = current_focus_ undrained_menu
       ∨ ∃ b, b ∈ button_list_ undrained_menu
              ∧ TouchscreenButton.GetId b = current_focus_ g'
              ∧ TouchscreenButton.is_visible b = true).
Proof.
  eexists. split; [reflexivity|].
  apply (HandleControllerInput_focus_visible undrained_menu _ 193%Z 1%Z).
  reflexivity.
Defined.

Lemma HandleControllerInput_after_Setup_witness :
  (0 < UiGroup.cannonical_window_height sample_menu_def)%Z
  ∧ ∃ g' trace,
      Setup (Some sample_menu_def) failing_matman undrained_menu
      = Some (g', trace)
      ∧ ∀ (logical_input : Z) (controller : ControllerId),
          is_Some (HandleControllerInput logical_input controller g').
Proof.
  split; [reflexivity|].
  apply (HandleControllerInput_after_Setup sample_menu_def failing_matman
           undrained_menu).
  reflexivity.
Defined.

Lemma Setup_then_FindButtonById_witness :
  (0 < UiGroup.cannonical_window_height sample_menu_def)%Z
  ∧ NoDup (ButtonDef.ID
             <$> ArrayElements (UiGroup.button_list sample_menu_def))
  ∧ button_B ∈ ArrayElements (UiGroup.button_list sample_menu_def)
  ∧ ∃ g' trace,
      Setup (Some sample_menu_def) sample_matman empty_menu = Some (g', trace)
      ∧ ∃ b,
          FindButtonById g' (ButtonDef.ID button_B) = Some b
          ∧ TouchscreenButton.button_def b = Some button_B
          ∧ TouchscreenButton.is_active b
            = negb (ButtonDef.starts_active button_B =? 0)%Z.
Proof.
  assert (NoDup (ButtonDef.ID
                   <$> ArrayElements (UiGroup.button_list sample_menu_def)))
    as Hnodup by (apply (bool_decide_unpack _); vm_compute; exact I).
  assert (button_B ∈ ArrayElements (UiGroup.button_list sample_menu_def))
    as Hin by (right; left).
  split; [reflexivity|]. split; [exact Hnodup|]. split; [exact Hin|].
  destruct (Setup_then_FindButtonById sample_menu_def sample_matman
              empty_menu eq_refl) as (g' & trace & Hsetup & _ & Hfind).
  exists g', trace. split; [exact Hsetup|].
  exact (Hfind Hnodup button_B Hin).
Defined.

Lemma Setup_silent_when_all_found_witness :
  (∀ name, is_Some (FindMaterial sample_matman name))
  ∧ (∀ name, is_Some (FindShader sample_matman name))
  ∧ (0 < UiGroup.cannonical_window_height sample_menu_def)%Z
  ∧ ∃ g' trace,
      Setup (Some sample_menu_def) sample_matman empty_menu = Some (g', trace)
      ∧ Forall (λ e, is_log e = false) trace.
Proof.
  assert (∀ name, is_Some (FindMaterial sample_matman name)) as Hmaterials
    by (intros name; eexists; reflexivity).
  assert (∀ name, is_Some (FindShader sample_matman name)) as Hshaders
    by (intros name; eexists; reflexivity).
  split; [exact Hmaterials|]. split; [exact Hshaders|].
  split; [reflexivity|].
  exact (Setup_silent_when_all_found sample_menu_def sample_matman empty_menu
           Hmaterials Hshaders eq_refl).
Defined.

Lemma Setup_reports_missing_image_assets_witness :
  (0 < UiGroup.cannonical_window_height sample_menu_def)%Z
  ∧ background_image
    ∈ ArrayElements (UiGroup.static_image_list sample_menu_def)
  ∧ ∃ g' trace,
      Setup (Some sample_menu_def) failing_matman empty_menu = Some (g', trace)
      ∧ SDL_LogError "Static image '%s' not found" "background.webp" ∈ trace
      ∧ SDL_LogError "Static image missing shader '%s'" "shaders/textured"
        ∈ trace.
Proof.
  assert (background_image
          ∈ ArrayElements (UiGroup.static_image_list sample_menu_def))
    as Hin by left.
  split; [reflexivity|]. split; [exact Hin|].
  destruct (Setup_reports_missing_image_assets sample_menu_def failing_matman
              empty_menu background_image eq_refl Hin)
    as (g' & trace & Hsetup & Hmaterial & Hshader).
  exists g', trace. split; [exact Hsetup|]. split.
  - apply (Hmaterial {| ButtonTexture.standard := "background.webp";
                        ButtonTexture.touch_screen := None |});
      [left | reflexivity].
  - apply Hshader. reflexivity.
Defined.

Lemma LoadAssets_covers_Setup_witness :
  ∃ g' trace,
    Setup (Some sample_menu_def) sample_matman empty_menu = Some (g', trace)
    ∧ (∀ name, CallFindMaterial name ∈ trace →
               CallLoadMaterial name ∈ LoadAssets sample_menu_def)
    ∧ (∀ name, CallFindShader name ∈ trace →
               CallLoadShader name ∈ LoadAssets sample_menu_def).
Proof.
  eexists _, _. split; [reflexivity|].
  eapply (LoadAssets_covers_Setup sample_menu_def sample_matman empty_menu).
  reflexivity.
Defined.

Lemma Render_draws_each_once_witness :
  ∃ calls,
    Render sample_menu = Some calls
    ∧ calls ≡ₚ (RenderImage <$> image_list_ sample_menu)
               ++ (RenderButton <$> button_list_ sample_menu)
    ∧ length calls
      = length (image_list_ sample_menu) + length (button_list_ sample_menu).
Proof.
  eexists. split; [reflexivity|].
  apply (Render_draws_each_once sample_menu). reflexivity.
Defined.

Lemma Render_after_Setup_witness :
  (0 < UiGroup.cannonical_window_height sample_menu_def)%Z
  ∧ ∃ g' trace calls,
      Setup (Some sample_menu_def) failing_matman empty_menu = Some (g', trace)
      ∧ Render g' = Some calls
      ∧ length calls = 1 + 2.
Proof.
  split; [reflexivity|].
  exact (Render_after_Setup sample_menu_def failing_matman empty_menu eq_refl).
Defined.

Lemma HandleControllerInput_cancel_last_witness :
  is_Some (FindButtonById undrained_menu (current_focus_ undrained_menu))
  ∧ asserted 193%Z LogicalInputs_Cancel = true
  ∧ ∃ g',
      HandleControllerInput 193%Z 1%Z undrained_menu = Some g'
      ∧ last (unhandled_selections_ g')
        = Some (MkMenuSelection ButtonId_Cancel 1%Z).
Proof.
  assert (is_Some (FindButtonById undrained_menu
                     (current_focus_ undrained_menu))) as Hfocus
    by (eexists; reflexivity).
  split; [exact Hfocus|]. split; [reflexivity|].
  eexists. split; [reflexivity|].
  apply (HandleControllerInput_cancel_last undrained_menu _ 193%Z 1%Z Hfocus);
    reflexivity.
Defined.

End CoverageConcrete.
